(** * Hand gesture recognition API: the inference pipeline of [app/main.py]

    A shallow embedding of [normalize_landmarks], [predict_gesture] and
    [get_metrics], and the properties of the service stated over it.

    - float64 values are Rocq's primitive binary64 floats, so NaN and the
      infinities behave as in NumPy;
    - the pandas frame is a map from column names to cells of a store, so
      that the views taken by [.values] alias the frame's columns;
    - the classifier and the label decoder are the two unpickled artifacts:
      they are parameters of the handler, which may raise;
    - the three process-wide counters are threaded through the handler. *)

From Stdlib Require Import ZArith List Ascii String Floats Lia.
From stdpp Require Import base option list gmap strings pretty.
Import ListNotations.

Open Scope string_scope.
Open Scope list_scope.

(** ** Exceptions

    A Python exception is kept as its message, [str(e)]: the handler
    looks at nothing else. *)

Inductive result (A : Type) : Type :=
| Ok (a : A)
| Raise (e : string).
Arguments Ok {A} a.
Arguments Raise {A} e.

(** ** What the request leaves behind besides its reply *)

Inductive event : Type :=
| Print (text : string) (values : list float)
| LogError (msg : string)
| LogInfo (gesture : string) (direction : option string) (confidence : float)
| CallPredict (X : list float)
| CallPredictProba (X : list float)
| CallInverseTransform (y : list Z).

(** ** The store and the computations over it

    Every array of the frame has one row, so a cell of the store holds one
    float64.  A computation reads and extends the store, emits events and
    returns a value or raises. *)

Abbreviation loc := nat (only parsing).
Abbreviation heap := (list float) (only parsing).

Definition M (A : Type) : Type := heap -> list event * heap * result A.

Definition ret {A} (a : A) : M A := fun h => ([], h, Ok a).

Definition throw {A} (e : string) : M A := fun h => ([], h, Raise e).

Definition bind {A B} (m : M A) (f : A -> M B) : M B :=
  fun h =>
    match m h with
    | (ev, h1, Ok a) =>
        match f a h1 with
        | (ev', h2, r) => (ev ++ ev', h2, r)
        end
    | (ev, h1, Raise e) => (ev, h1, Raise e)
    end.

Notation "x <- c1 ;; c2" := (bind c1 (fun x => c2))
  (at level 100, c1 at next level, right associativity).

Definition emit (e : event) : M unit := fun h => ([e], h, Ok tt).

Definition lift {A} (r : result A) : M A := fun h => ([], h, r).

(** [alloc v] is a fresh array holding [v]. *)
Definition alloc (v : float) : M loc := fun h => ([], h ++ [v], Ok (length h)).

(** Reading an array through a reference to it. *)
Definition load (l : loc) : M float :=
  fun h =>
    match h !! l with
    | Some v => ([], h, Ok v)
    | None => ([], h, Raise "dangling array reference")
    end.

(** [for i in range(lo, lo + n): acc = body(i, acc)] *)
Fixpoint for_range {A} (lo n : nat) (body : nat -> A -> M A) (acc : A) : M A :=
  match n with
  | O => ret acc
  | S n' => acc' <- body lo acc ;; for_range (S lo) n' body acc'
  end.

Fixpoint collect {A B} (f : A -> M B) (l : list A) : M (list B) :=
  match l with
  | [] => ret []
  | a :: l' => b <- f a ;; bs <- collect f l' ;; ret (b :: bs)
  end.

(** ** pandas: a one-row DataFrame

    [columns] is the column index in order, [data] binds each column to the
    array that holds it. *)

Record DataFrame : Type := mkDataFrame {
  columns : list string;
  data : gmap string loc
}.

(** [str(KeyError(k))] *)
Definition key_error (k : string) : string := "'" +:+ k +:+ "'".

(** [df[k].values]: the array behind column [k], not a copy of it. *)
Definition values (df : DataFrame) (k : string) : M loc :=
  match data df !! k with
  | Some l => ret l
  | None => throw (key_error k)
  end.

(** [df[k]] used as an operand: the current content of column [k]. *)
Definition getitem (df : DataFrame) (k : string) : M float :=
  l <- values df k ;; load l.

(** The frame with column [k] held by the array [l]; a new key is appended
    to the index. *)
Definition bound (df : DataFrame) (k : string) (l : loc) : DataFrame :=
  {| columns := if decide (k ∈ columns df) then columns df
                else columns df ++ [k];
     data := <[k := l]> (data df) |}.

(** [df[k] = v]: pandas installs a new array under [k]; the array the
    column held before is left as it was, so a view taken from it earlier
    still shows the old content. *)
Definition setitem (df : DataFrame) (k : string) (v : float) : M DataFrame :=
  l <- alloc v ;; ret (bound df k l).

Definition shape_error (n m : nat) : string :=
  "Shape of passed values is (1, " +:+ pretty n +:+ "), indices imply (1, "
    +:+ pretty m +:+ ")".

Fixpoint fill (df : DataFrame) (names : list string) (row : list float)
  : M DataFrame :=
  match names, row with
  | k :: names', v :: row' => df' <- setitem df k v ;; fill df' names' row'
  | _, _ => ret df
  end.

(** [pd.DataFrame(features, columns=names)] for [features] of shape
    [(1, len(row))]. *)
Definition DataFrame_new (row : list float) (names : list string)
  : M DataFrame :=
  if decide (length row = length names)
  then fill {| columns := []; data := ∅ |} names row
  else throw (shape_error (length row) (length names)).

(** The frame as the classifier receives it: the row in column order. *)
Definition to_numpy (df : DataFrame) : M (list float) :=
  collect (getitem df) (columns df).

(** ** normalize_landmarks *)

(** The f-string [f'{axis}{i}']. *)
Definition fkey (axis : string) (i : nat) : string := axis +:+ pretty i.

(** [np.sqrt(dx**2 + dy**2)]; NumPy squares a float64 by multiplying it
    with itself. *)
Definition hypot (dx dy : float) : float :=
  PrimFloat.sqrt (dx * dx + dy * dy)%float.

Definition normalize_step (wrist_x wrist_y : loc) (scale_factor : float)
    (i : nat) (df : DataFrame) : M DataFrame :=
  xi <- getitem df (fkey "x" i) ;;
  wx <- load wrist_x ;;
  df <- setitem df (fkey "x" i) ((xi - wx) / scale_factor)%float ;;
  yi <- getitem df (fkey "y" i) ;;
  wy <- load wrist_y ;;
  setitem df (fkey "y" i) ((yi - wy) / scale_factor)%float.

Definition normalize_landmarks (df : DataFrame) : M DataFrame :=
  wrist_x <- values df "x1" ;;
  wrist_y <- values df "y1" ;;
  middle_tip_x <- values df "x13" ;;
  middle_tip_y <- values df "y13" ;;
  mx <- load middle_tip_x ;;
  wx <- load wrist_x ;;
  my <- load middle_tip_y ;;
  wy <- load wrist_y ;;
  let scale_factor := hypot (mx - wx)%float (my - wy)%float in
  df <- for_range 1 21 (normalize_step wrist_x wrist_y scale_factor) df ;;
  x1 <- getitem df "x1" ;;
  y1 <- getitem df "y1" ;;
  _ <- emit (Print "Wrist (x1, y1) after normalization:" [x1; y1]) ;;
  x13 <- getitem df "x13" ;;
  y13 <- getitem df "y13" ;;
  _ <- emit (Print "Middle finger tip (x13, y13) distance from wrist:"
               [hypot x13 y13]) ;;
  ret df.

(** [[f'{axis}{i}' for i in range(1, 22) for axis in ['x', 'y', 'z']]] *)
Definition feature_names : list string :=
  flat_map (fun i => map (fun axis => fkey axis i) ["x"; "y"; "z"]) (seq 1 21).

(** ** The request payload

    [await request.json()] yields a Python value built from [None], [bool],
    [int], [float], [str], [list] and [dict].  An object is kept as its
    items in order, with distinct keys, as the parser leaves them; a [str]
    is kept as the bytes of its UTF-8 form. *)

#[local] Set Warnings "-register-all".
Inductive json : Type :=
| JNull
| JBool (b : bool)
| JInt (z : Z)
| JFloat (f : float)
| JStr (s : string)
| JArr (items : list json)
| JObj (fields : list (string * json)).

Definition type_name (v : json) : string :=
  match v with
  | JNull => "NoneType"
  | JBool _ => "bool"
  | JInt _ => "int"
  | JFloat _ => "float"
  | JStr _ => "str"
  | JArr _ => "list"
  | JObj _ => "dict"
  end.

Fixpoint assoc (k : string) (fields : list (string * json)) : option json :=
  match fields with
  | [] => None
  | (k', v) :: fields' => if decide (k = k') then Some v else assoc k fields'
  end.

(** [data.get(k)]: only a dict has the method; a missing key gives [None]. *)
Definition dict_get (data : json) (k : string) : result json :=
  match data with
  | JObj fields => Ok (default JNull (assoc k fields))
  | _ => Raise ("'" +:+ type_name data +:+ "' object has no attribute 'get'")
  end.

(** Python's truth value, as [not v] tests it. *)
Definition truthy (v : json) : bool :=
  match v with
  | JNull => false
  | JBool b => b
  | JInt z => negb (z =? 0)%Z
  | JFloat f => negb (PrimFloat.eqb f 0)
  | JStr s => negb (String.eqb s "")
  | JArr items => negb (Nat.eqb (length items) 0)
  | JObj fields => negb (Nat.eqb (length fields) 0)
  end.

(** A byte that continues a UTF-8 sequence: [10xxxxxx]. *)
Definition continuation (c : ascii) : bool :=
  match c with
  | Ascii _ _ _ _ _ _ false true => true
  | _ => false
  end.

(** The code points of a [str], kept as its UTF-8 bytes: one for every byte
    that does not continue a sequence. *)
Fixpoint code_points (s : string) : nat :=
  match s with
  | EmptyString => 0
  | String c s' => (if continuation c then 0 else 1) + code_points s'
  end.

(** [len(v)]: the code points of a string, the items of a list, the keys of
    a dict. *)
Definition py_len (v : json) : result nat :=
  match v with
  | JStr s => Ok (code_points s)
  | JArr items => Ok (length items)
  | JObj fields => Ok (length fields)
  | _ => Raise ("object of type '" +:+ type_name v +:+ "' has no len()")
  end.

Definition as_float (v : json) : option float :=
  match v with
  | JFloat f => Some f
  | _ => None
  end.

(** The landmarks when they are what [LandmarkData] declares: a list of
    floats. *)
Definition as_floats (v : json) : option (list float) :=
  match v with
  | JArr items => mapM as_float items
  | _ => None
  end.

(** ** The two artifacts *)

(** The unpickled classifier: two methods over the frame, each returning
    one entry per row of the frame, or raising. *)
Record Classifier : Type := mkClassifier {
  predict : list float -> result (list Z);
  predict_proba : list float -> result (list (list float))
}.

(** Modelled from the spec: the label decoder, the unpickled
    [label_encoder.pkl] whose class is not in the repository.  It maps an
    integer class id to the gesture name at that position of its fixed
    vocabulary and raises on an id outside of it. *)
Record LabelEncoder : Type := mkLabelEncoder {
  classes_ : list string
}.

Definition in_vocabulary (le : LabelEncoder) (y : Z) : bool :=
  (0 <=? y)%Z && (y <? Z.of_nat (length (classes_ le)))%Z.

Definition unseen_labels (ys : list Z) : string :=
  "y contains previously unseen labels: ["
    +:+ String.concat " " (map pretty ys) +:+ "]".

Definition inverse_transform (le : LabelEncoder) (y : list Z)
  : result (list string) :=
  match filter (fun c => in_vocabulary le c = false) y with
  | [] => Ok (omap (fun c => classes_ le !! Z.to_nat c) y)
  | unseen => Raise (unseen_labels unseen)
  end.

(** [a[0]] *)
Definition item0 {A} (a : list A) : result A :=
  match a with
  | x :: _ => Ok x
  | [] => Raise "index 0 is out of bounds for axis 0 with size 0"
  end.

(** One step of NumPy's maximum reduction: the running value is kept when
    it is at least the next one or is NaN. *)
Definition maximum (acc x : float) : float :=
  if PrimFloat.leb x acc || PrimFloat.is_nan acc then acc else x.

(** [np.max(a)] *)
Definition np_max (a : list float) : result float :=
  match a with
  | x :: a' => Ok (fold_left maximum a' x)
  | [] => Raise "zero-size array to reduction operation maximum which has no identity"
  end.

Definition GESTURE_MAPPING : gmap string string :=
  list_to_map [("like", "up"); ("dislike", "down");
               ("two_up", "right"); ("two_up_inverted", "left")].

(** ** The service *)

Record PredictionResponse : Type := mkPredictionResponse {
  gesture : string;
  direction : option string;
  confidence : float;
  timestamp : string
}.

(** The process-wide counters. *)
Record Metrics : Type := mkMetrics {
  prediction_count : Z;
  error_count : Z;
  latency_sum : float
}.

Definition metrics0 : Metrics :=
  {| prediction_count := 0; error_count := 0; latency_sum := 0 |}.

(** What stays fixed while the process runs: the two artifacts, [None] when
    loading failed, and what array construction and normalization make of
    landmarks that are not a list of floats (integers, booleans, strings,
    nested values), where NumPy's dtype promotion decides: the row handed to
    the classifier, or the exception. *)
Record Env : Type := mkEnv {
  model : option Classifier;
  label_encoder : option LabelEncoder;
  foreign_features : json -> result (list float)
}.

(** One call of the endpoint: the outcome of [await request.json()] and the
    readings of the clock. *)
Record Request : Type := mkRequest {
  body : result json;
  start_time : float;
  end_time : float;
  now : string
}.

Inductive reply : Type :=
| Return (r : PredictionResponse)
| HTTPException (status_code : Z) (detail : string)
| Unhandled (e : string).

(** The frame handed to the classifier. *)
Definition build_features (env : Env) (landmarks : json) : M (list float) :=
  match as_floats landmarks with
  | Some features =>
      features <- DataFrame_new features feature_names ;;
      features <- normalize_landmarks features ;;
      to_numpy features
  | None => lift (foreign_features env landmarks)
  end.

Definition classify (model : Classifier) (label_encoder : LabelEncoder)
    (features : list float) : M (string * option string * float) :=
  _ <- emit (CallPredict features) ;;
  ys <- lift (predict model features) ;;
  prediction <- lift (item0 ys) ;;
  _ <- emit (CallPredictProba features) ;;
  ps <- lift (predict_proba model features) ;;
  probabilities <- lift (item0 ps) ;;
  confidence <- lift (np_max probabilities) ;;
  _ <- emit (CallInverseTransform [prediction]) ;;
  labels <- lift (inverse_transform label_encoder [prediction]) ;;
  gesture <- lift (item0 labels) ;;
  let direction := GESTURE_MAPPING !! gesture in
  ret (gesture, direction, confidence).

(** The body of the handler's second [try]. *)
Definition infer (env : Env) (model : Classifier) (label_encoder : LabelEncoder)
    (landmarks : json) : M (string * option string * float) :=
  features <- build_features env landmarks ;;
  classify model label_encoder features.

Definition record_success (latency : float) (st : Metrics) : Metrics :=
  {| prediction_count := prediction_count st + 1;
     error_count := error_count st;
     latency_sum := (latency_sum st + latency)%float |}.

Definition record_error (st : Metrics) : Metrics :=
  {| prediction_count := prediction_count st;
     error_count := error_count st + 1;
     latency_sum := latency_sum st |}.

Definition run_inference (env : Env) (model : Classifier)
    (label_encoder : LabelEncoder) (landmarks : json) (req : Request)
    (st : Metrics) : list event * Metrics * reply :=
  match infer env model label_encoder landmarks [] with
  | (ev, _, Ok (gesture, direction, confidence)) =>
      let latency := (end_time req - start_time req)%float in
      (ev ++ [LogInfo gesture direction confidence],
       record_success latency st,
       Return {| gesture := gesture; direction := direction;
                 confidence := confidence; timestamp := now req |})
  | (ev, _, Raise e) =>
      (ev ++ [LogError ("Prediction error: " +:+ e)],
       record_error st,
       HTTPException 500 e)
  end.

Definition bad_length (got : string) : list event :=
  [LogError ("Invalid input length: expected 63 landmarks, got " +:+ got)].

Definition predict_gesture (env : Env) (req : Request) (st : Metrics)
  : list event * Metrics * reply :=
  match model env, label_encoder env with
  | Some model, Some label_encoder =>
      match body req with
      | Raise e =>
          ([LogError ("Invalid JSON input: " +:+ e)], st,
           HTTPException 400 "Invalid JSON input")
      | Ok data =>
          match dict_get data "landmarks" with
          | Raise e =>
              ([LogError ("Invalid JSON input: " +:+ e)], st,
               HTTPException 400 "Invalid JSON input")
          | Ok landmarks =>
              if negb (truthy landmarks)
              then (bad_length "none", st,
                    HTTPException 400 "Expected 63 landmark features")
              else
                match py_len landmarks with
                | Raise e => ([], st, Unhandled e)
                | Ok n =>
                    if negb (Nat.eqb n 63)
                    then (bad_length (pretty n), st,
                          HTTPException 400 "Expected 63 landmark features")
                    else run_inference env model label_encoder landmarks req st
                end
          end
      end
  | _, _ => ([], st, HTTPException 500 "Model or encoder not loaded")
  end.

(** ** The metrics report *)

(** Python's [int] as a float64, rounded to nearest, ties to even.  (An
    [int] beyond the float64 range, which a counter of requests does not
    reach and where Python raises OverflowError, shows as an infinity.) *)
Definition float_of_int (z : Z) : float :=
  SF2Prim (binary_normalize prec emax z 0 false).

(** An [int] as the exact binary number it is: mantissa and exponent 0. *)
Definition exact_int (z : Z) : spec_float :=
  match z with
  | Z0 => S754_zero false
  | Zpos p => S754_finite false p 0
  | Zneg p => S754_finite true p 0
  end.

(** [a / b] on two [int]s: the exact quotient rounded once to float64, ties
    to even.  When both operands are below 2^53 in magnitude they are
    float64 values themselves and the quotient is their float64 division;
    otherwise the division is carried out on the integers.  ([b] is never 0
    here; the OverflowError of a quotient beyond the float64 range, which
    counters of requests do not reach, shows as an infinity.) *)
Definition int_truediv (a b : Z) : float :=
  if (Z.abs a <? 2 ^ 53)%Z && (Z.abs b <? 2 ^ 53)%Z
  then (float_of_int a / float_of_int b)%float
  else SF2Prim (SFdiv prec emax (exact_int a) (exact_int b)).

Record ModelMetrics : Type := mkModelMetrics {
  report_prediction_count : Z;
  report_error_count : Z;
  error_rate : float;
  average_latency : float
}.

Record DataMetrics : Type := mkDataMetrics {
  input_validation_errors : Z;
  last_prediction_time : string
}.

Record ServerMetrics : Type := mkServerMetrics {
  uptime : float;
  status : string
}.

Record MetricsReport : Type := mkMetricsReport {
  model_metrics : ModelMetrics;
  data_metrics : DataMetrics;
  server_metrics : ServerMetrics
}.

(** [clock] is [time.time()], [today] is [datetime.now().isoformat()]. *)
Definition get_metrics (app_start_time clock : float) (today : string)
    (st : Metrics) : MetricsReport :=
  let avg_latency :=
    if (0 <? prediction_count st)%Z
    then (latency_sum st / float_of_int (prediction_count st))%float
    else 0%float in
  {| model_metrics :=
       {| report_prediction_count := prediction_count st;
          report_error_count := error_count st;
          error_rate := int_truediv (error_count st)
                          (Z.max (prediction_count st) 1);
          average_latency := avg_latency |};
     data_metrics :=
       {| input_validation_errors := error_count st;
          last_prediction_time := today |};
     server_metrics :=
       {| uptime := (clock - app_start_time)%float;
          status := "running" |} |}.

(** [GET /health] *)
Definition health_check (env : Env) (today : string) : string * bool * string :=
  ("healthy", bool_decide (is_Some (model env)), today).

(** ** Frames in a store *)

(** The content of column [k]. *)
Definition cell (h : heap) (df : DataFrame) (k : string) : option float :=
  data df !! k ≫= fun l => h !! l.

(** No column refers to an array the store does not hold. *)
Definition wf (h : heap) (df : DataFrame) : Prop :=
  map_Forall (fun _ l => l < length h) (data df).

(** ** Sample data *)

(** A pose whose 63 coordinates are 1.0, 2.0, ..., 63.0. *)
Definition sample_pose : list float :=
  map (fun n => float_of_int (Z.of_nat n)) (seq 1 63).

(** The frame [pd.DataFrame] makes of it in an empty store. *)
Definition sample_frame : heap * DataFrame :=
  match DataFrame_new sample_pose feature_names [] with
  | (_, h, Ok df) => (h, df)
  | (_, h, Raise _) => (h, {| columns := []; data := ∅ |})
  end.

(** Coordinate [i] of landmark [n] (1..21) in a flat row: 0 for x, 1 for y,
    2 for z. *)
Definition coord (row : list float) (i n : nat) : float :=
  default 0%float (row !! (3 * (n - 1) + i)).

(** ** The words of the specification *)

(** The scale factor of a flat row: the distance between landmark 1 and
    landmark 13 in the plane, sqrt((x13 - x1)^2 + (y13 - y1)^2). *)
Definition scale_of (row : list float) : float :=
  let dx := (coord row 0 13 - coord row 0 1)%float in
  let dy := (coord row 1 13 - coord row 1 1)%float in
  PrimFloat.sqrt (dx * dx + dy * dy)%float.

(** The normalized row: x and y recentred on landmark 1 and divided by the
    scale factor, z as it was. *)
Definition normalized (row : list float) : list float :=
  imap (fun j v =>
          match j mod 3 with
          | 0 => ((v - coord row 0 1) / scale_of row)%float
          | 1 => ((v - coord row 1 1) / scale_of row)%float
          | _ => v
          end) row.

(** A probability: a float64 in [0, 1]. *)
Definition probability (p : float) : bool :=
  (0 <=? p)%float && (p <=? 1)%float.

(** [np.argmax(a)]: the first position holding the maximum. *)
Definition np_argmax (a : list float) : option nat :=
  match np_max a with
  | Ok m =>
      fst <$> list_find
        (fun v => (if PrimFloat.is_nan m then PrimFloat.is_nan v
                   else PrimFloat.eqb v m) = true) a
  | Raise _ => None
  end.

(** The classifier adapter as the specification words it: the class of
    maximum probability, decoded. *)
Definition label_of_maximum (le : LabelEncoder) (probabilities : list float)
  : option string :=
  np_argmax probabilities ≫= fun c => classes_ le !! c.

(** Modelled from the spec: the classifier adapter fails on non-finite
    input (section 4.3), as the scikit-learn estimator the service unpickles
    does.  Here: [predict] raises on every frame that holds a NaN. *)
Definition rejects_nan (clf : Classifier) : Prop :=
  forall X, existsb PrimFloat.is_nan X = true -> exists e, predict clf X = Raise e.

(** The float64 nearest to the rational [m / d] of two counts, ties to
    even: the division carried out on the integers and rounded once. *)
Definition nearest_ratio (m d : N) : float :=
  match m, d with
  | N0, N0 => nan
  | N0, Npos _ => 0%float
  | Npos _, N0 => infinity
  | Npos p, Npos q =>
      SF2Prim (SFdiv prec emax (S754_finite false p 0) (S754_finite false q 0))
  end.

(** All three checks of the handler pass: both artifacts are loaded, the
    payload is an object, and its landmarks have length 63. *)
Definition validated (env : Env) (req : Request) : bool :=
  match model env, label_encoder env, body req with
  | Some _, Some _, Ok data =>
      match dict_get data "landmarks" with
      | Ok landmarks =>
          truthy landmarks &&
          match py_len landmarks with
          | Ok n => Nat.eqb n 63
          | Raise _ => false
          end
      | Raise _ => false
      end
  | _, _, _ => false
  end.

Definition succeeded (r : reply) : bool :=
  match r with
  | Return _ => true
  | _ => false
  end.

(** The reply to a request; it does not depend on the counters. *)
Definition reply_to (env : Env) (req : Request) : reply :=
  (predict_gesture env req metrics0).2.

Definition is_success (env : Env) (req : Request) : bool :=
  succeeded (reply_to env req).

(** The request passed validation and then failed. *)
Definition is_failure (env : Env) (req : Request) : bool :=
  validated env req && negb (succeeded (reply_to env req)).

Definition latency (req : Request) : float :=
  (end_time req - start_time req)%float.

(** The counters after a sequence of calls. *)
Fixpoint serve (env : Env) (reqs : list Request) (st : Metrics) : Metrics :=
  match reqs with
  | [] => st
  | req :: reqs' => serve env reqs' (predict_gesture env req st).1.2
  end.

(** How many requests of a sequence satisfy [p]. *)
Definition count {A} (p : A -> bool) (l : list A) : nat :=
  length (List.filter p l).

(** The latencies of the successful calls, in call order, summed the way
    [latency_sum += latency] sums them. *)
Definition latency_total (env : Env) (reqs : list Request) (start : float) : float :=
  fold_left PrimFloat.add (map latency (List.filter (is_success env) reqs)) start.

(** An event of feature construction or classification. *)
Definition inference_event (e : event) : bool :=
  match e with
  | Print _ _ | CallPredict _ | CallPredictProba _ | CallInverseTransform _ => true
  | LogError _ | LogInfo _ _ _ => false
  end.

(** [needle in hay] *)
Fixpoint contains (needle hay : string) : bool :=
  String.prefix needle hay ||
  match hay with
  | EmptyString => false
  | String _ hay' => contains needle hay'
  end.


(** ** Sample artifacts and requests *)

(** The vocabulary of the four mapped gestures, in the decoder's order. *)
Definition gestures : LabelEncoder :=
  {| classes_ := ["dislike"; "like"; "two_up"; "two_up_inverted"] |}.


(** A classifier that checks its input as scikit-learn estimators do. *)
Definition strict : Classifier :=
  {| predict := fun X =>
       if existsb PrimFloat.is_nan X then Raise "Input X contains NaN."
       else Ok [1%Z];
     predict_proba := fun X =>
       if existsb PrimFloat.is_nan X then Raise "Input X contains NaN."
       else Ok [[0.125; 0.75; 0.0625; 0.0625]%float] |}.

(** A classifier whose two methods disagree: [predict] answers class 0
    while the largest probability is that of class 1. *)
Definition inconsistent : Classifier :=
  {| predict := fun _ => Ok [0%Z];
     predict_proba := fun _ => Ok [[0.25; 0.75; 0; 0]%float] |}.

Definition service (clf : Classifier) : Env :=
  {| model := Some clf;
     label_encoder := Some gestures;
     foreign_features := fun _ => Raise "could not convert string to float" |}.

(** The process after loading the artifacts failed. *)
Definition unloaded : Env :=
  {| model := None;
     label_encoder := None;
     foreign_features := fun _ => Raise "could not convert string to float" |}.

Definition post (data : json) : Request :=
  {| body := Ok data;
     start_time := 100;
     end_time := 100.5;
     now := "2024-01-01T00:00:00" |}.

(** [{"landmarks": [v0, v1, ...]}] *)
Definition landmarks_of (row : list float) : json :=
  JObj [("landmarks", JArr (JFloat <$> row))].

(** [[0.0] * 63] *)
Definition zeros : list float := repeat 0%float 63.

(** ** Start-up *)

Inductive log_line : Type :=
| Info (msg : string)
| Error (msg : string).

(** The module-level [try]: [pickle.load] of the two files, each giving the
    unpickled object ([None] when that is what the file holds) or raising;
    the encoder is opened only after the model has loaded, and any exception
    leaves both globals [None]. *)
Definition load_artifacts (model_file : result (option Classifier))
    (encoder_file : result (option LabelEncoder))
  : option Classifier * option LabelEncoder * log_line :=
  match model_file with
  | Ok model =>
      match encoder_file with
      | Ok label_encoder =>
          (model, label_encoder, Info "Model and encoder loaded successfully")
      | Raise e => (None, None, Error ("Error loading model or encoder: " +:+ e))
      end
  | Raise e => (None, None, Error ("Error loading model or encoder: " +:+ e))
  end.

(** The process once the module is imported. *)
Definition startup (model_file : result (option Classifier))
    (encoder_file : result (option LabelEncoder))
    (foreign : json -> result (list float)) : Env :=
  {| model := (load_artifacts model_file encoder_file).1.1;
     label_encoder := (load_artifacts model_file encoder_file).1.2;
     foreign_features := foreign |}.

(** ** The tests of [tests/test_api.py]

    [client.post("/predict", json={"landmarks": landmarks})] is a request
    whose body parses to that object. *)

(** [test_predict_invalid_input]: status 400 and the detail containing
    "Expected 63 landmark features". *)
Definition test_predict_invalid_input (env : Env) (req : Request) : bool :=
  match (predict_gesture env req metrics0).2 with
  | HTTPException status_code detail =>
      (status_code =? 400)%Z && contains "Expected 63 landmark features" detail
  | _ => false
  end.

(** What reaches the client.  The framework renders the handler's dict as
    JSON and refuses a float that is not finite: the ValueError is a server
    exception, as is one that escaped the handler (a deployed server
    answers it with a bare status 500, the test client raises it in the
    test); an HTTPException is sent with its status. *)
Inductive wire : Type :=
| Status (status_code : Z)
| ServerException.

Definition render (r : reply) : wire :=
  match r with
  | Return p =>
      if PrimFloat.is_finite (confidence p) then Status 200 else ServerException
  | HTTPException status_code _ => Status status_code
  | Unhandled _ => ServerException
  end.

(** [test_predict_valid_input]: the status is 200 or 500; on 200 the four
    keys are there and the confidence is a float, which the rendered dict
    always has.  A server exception is raised in the test by its client. *)
Definition test_predict_valid_input (env : Env) (req : Request) : bool :=
  match render (predict_gesture env req metrics0).2 with
  | Status status_code => (status_code =? 200)%Z || (status_code =? 500)%Z
  | ServerException => false
  end.

(** A frame that holds the columns of landmarks 1 to 13 only. *)
Definition short_frame : heap * DataFrame :=
  match DataFrame_new (take 39 sample_pose) (take 39 feature_names) [] with
  | (_, h, Ok df) => (h, df)
  | (_, h, Raise _) => (h, {| columns := []; data := ∅ |})
  end.

(** The lines of [logger.error] and of [logger.info] among the events. *)
Definition is_error_log (e : event) : bool :=
  match e with
  | LogError _ => true
  | _ => false
  end.

Definition is_info_log (e : event) : bool :=
  match e with
  | LogInfo _ _ _ => true
  | _ => false
  end.

(** ** Running computations *)

Lemma bind_run {A B} (m : M A) (f : A -> M B) h ev h1 a :
  m h = (ev, h1, Ok a) ->
  (x <- m ;; f x) h = match f a h1 with (ev', h2, r) => (ev ++ ev', h2, r) end.
Proof. intros Hm. unfold bind. by rewrite Hm. Qed.

(** Run the first computation of a sequence, given what it evaluates to. *)
Ltac run H := rewrite (bind_run _ _ _ _ _ _ H); cbv beta.

Lemma load_run h l v : h !! l = Some v -> load l h = ([], h, Ok v).
Proof. intros Hl. unfold load. by rewrite Hl. Qed.

(** ** Frames in a store *)

Lemma values_cell h df k v :
  cell h df k = Some v ->
  exists l, values df k h = ([], h, Ok l) /\ h !! l = Some v.
Proof.
  unfold cell, values. destruct (data df !! k) as [l|]; simpl; [|done].
  intros Hl. exists l. done.
Qed.

Lemma getitem_cell h df k v :
  cell h df k = Some v -> getitem df k h = ([], h, Ok v).
Proof.
  intros (l & Hv & Hl)%values_cell. unfold getitem.
  run Hv. by rewrite (load_run _ _ _ Hl).
Qed.

Lemma setitem_run df k v h :
  setitem df k v h = ([], h ++ [v], Ok (bound df k (length h))).
Proof. reflexivity. Qed.

Lemma wf_setitem h df k v : wf h df -> wf (h ++ [v]) (bound df k (length h)).
Proof.
  intros Hwf. unfold wf, bound; simpl. apply map_Forall_insert_2.
  - rewrite length_app; simpl; lia.
  - eapply map_Forall_impl; [exact Hwf|]. intros ? l Hl; simpl in *.
    rewrite length_app; simpl; lia.
Qed.

Lemma cell_grow h df k v : wf h df -> cell (h ++ [v]) df k = cell h df k.
Proof.
  intros Hwf. unfold cell. destruct (data df !! k) as [l|] eqn:Hk; simpl; [|done].
  apply lookup_app_l. exact (Hwf k l Hk).
Qed.

Lemma cell_setitem h df k v k' :
  wf h df ->
  cell (h ++ [v]) (bound df k (length h)) k'
  = if decide (k = k') then Some v else cell h df k'.
Proof.
  intros Hwf. case_decide as Hk.
  - subst k'. unfold cell, bound; simpl. rewrite lookup_insert_eq; simpl.
    by rewrite lookup_app_r, Nat.sub_diag.
  - rewrite <- (cell_grow h df k' v Hwf). unfold cell, bound; simpl.
    by rewrite lookup_insert_ne.
Qed.
(** ** Column keys *)

Lemma fkey_x_inj i j : fkey "x" i = fkey "x" j -> i = j.
Proof. unfold fkey; simpl. intros [= H]. by apply (inj pretty). Qed.

Lemma fkey_y_inj i j : fkey "y" i = fkey "y" j -> i = j.
Proof. unfold fkey; simpl. intros [= H]. by apply (inj pretty). Qed.

Lemma fkey_x_y i j : fkey "x" i <> fkey "y" j.
Proof. unfold fkey; simpl. intros [=]. Qed.

Lemma fkey_z_x i j : fkey "z" i <> fkey "x" j.
Proof. unfold fkey; simpl. intros [=]. Qed.

Lemma fkey_z_y i j : fkey "z" i <> fkey "y" j.
Proof. unfold fkey; simpl. intros [=]. Qed.

(** ** One turn of the loop *)

Lemma normalize_step_run wxl wyl wx wy s i df h xi yi :
  wf h df ->
  h !! wxl = Some wx -> h !! wyl = Some wy ->
  cell h df (fkey "x" i) = Some xi ->
  cell h df (fkey "y" i) = Some yi ->
  exists h' df',
    normalize_step wxl wyl s i df h = ([], h', Ok df') /\
    wf h' df' /\
    (forall l v, h !! l = Some v -> h' !! l = Some v) /\
    forall k, cell h' df' k =
      if decide (k = fkey "y" i) then Some ((yi - wy) / s)%float
      else if decide (k = fkey "x" i) then Some ((xi - wx) / s)%float
      else cell h df k.
Proof.
  intros Hwf Hwx Hwy Hx Hy.
  set (vx := ((xi - wx) / s)%float). set (vy := ((yi - wy) / s)%float).
  set (h1 := h ++ [vx]). set (df1 := bound df (fkey "x" i) (length h)).
  set (h2 := h1 ++ [vy]). set (df2 := bound df1 (fkey "y" i) (length h1)).
  assert (Hwf1 : wf h1 df1) by by apply wf_setitem.
  assert (Hy1 : cell h1 df1 (fkey "y" i) = Some yi).
  { unfold h1, df1. rewrite cell_setitem by done.
    rewrite decide_False by apply fkey_x_y. done. }
  exists h2, df2. split; [|split; [|split]].
  - unfold normalize_step.
    run (getitem_cell _ _ _ _ Hx). run (load_run _ _ _ Hwx).
    run (setitem_run df (fkey "x" i) vx h).
    run (getitem_cell _ _ _ _ Hy1).
    run (load_run _ _ _ (lookup_app_l_Some _ [vx] _ _ Hwy)).
    by rewrite setitem_run.
  - by apply wf_setitem.
  - intros l v Hl. unfold h2, h1.
    by do 2 apply lookup_app_l_Some.
  - intros k. unfold h2, df2. rewrite cell_setitem by done.
    unfold h1, df1. rewrite cell_setitem by done.
    repeat case_decide; congruence.
Qed.

(** ** The loop *)

Lemma for_range_normalize wxl wyl wx wy s n : forall lo df h,
  wf h df ->
  h !! wxl = Some wx -> h !! wyl = Some wy ->
  (forall i, lo <= i < lo + n ->
     is_Some (cell h df (fkey "x" i)) /\ is_Some (cell h df (fkey "y" i))) ->
  exists h' df',
    for_range lo n (normalize_step wxl wyl s) df h = ([], h', Ok df') /\
    wf h' df' /\
    (forall l v, h !! l = Some v -> h' !! l = Some v) /\
    (forall i, lo <= i < lo + n ->
       cell h' df' (fkey "x" i)
         = (fun v => ((v - wx) / s)%float) <$> cell h df (fkey "x" i) /\
       cell h' df' (fkey "y" i)
         = (fun v => ((v - wy) / s)%float) <$> cell h df (fkey "y" i)) /\
    (forall k, (forall i, lo <= i < lo + n -> k <> fkey "x" i /\ k <> fkey "y" i) ->
       cell h' df' k = cell h df k).
Proof.
  induction n as [|n IH]; intros lo df h Hwf Hwx Hwy Hxy.
  - exists h, df. repeat split; try done; lia.
  - destruct (Hxy lo ltac:(lia)) as [[xi Hx] [yi Hy]].
    destruct (normalize_step_run wxl wyl wx wy s lo df h xi yi)
      as (h1 & df1 & Hrun & Hwf1 & Hkeep1 & Hcell1); try done.
    assert (Hother : forall i, lo < i ->
              cell h1 df1 (fkey "x" i) = cell h df (fkey "x" i) /\
              cell h1 df1 (fkey "y" i) = cell h df (fkey "y" i)).
    { intros i Hi. rewrite !Hcell1.
      rewrite (decide_False (P := fkey "x" i = fkey "y" lo)) by apply fkey_x_y.
      rewrite (decide_False (P := fkey "x" i = fkey "x" lo))
        by (intros ?%fkey_x_inj; lia).
      rewrite (decide_False (P := fkey "y" i = fkey "y" lo))
        by (intros ?%fkey_y_inj; lia).
      done. }
    destruct (IH (S lo) df1 h1) as (h' & df' & Hloop & Hwf' & Hkeep' & Hin & Hout);
      auto.
    { intros i Hi. destruct (Hother i ltac:(lia)) as [-> ->]. apply Hxy. lia. }
    exists h', df'. split; [|split; [|split; [|split]]]; auto.
    + simpl. run Hrun. by rewrite Hloop.
    + intros i Hi. destruct (decide (i = lo)) as [->|Hne].
      * rewrite !Hout, !Hcell1, Hx, Hy.
        -- rewrite decide_False by apply fkey_x_y.
           rewrite !decide_True by done. done.
        -- intros j Hj. split; [apply not_eq_sym, fkey_x_y|].
           intros ?%fkey_y_inj; lia.
        -- intros j Hj. split; [|apply fkey_x_y].
           intros ?%fkey_x_inj; lia.
      * destruct (Hin i ltac:(lia)) as [-> ->].
        by destruct (Hother i ltac:(lia)) as [-> ->].
    + intros k Hk. rewrite Hout by (intros i Hi; apply Hk; lia).
      rewrite Hcell1. destruct (Hk lo ltac:(lia)) as [Hkx Hky].
      by rewrite !decide_False.
Qed.

(** ** normalize_landmarks on a frame *)

(** C2.  On every frame that holds the columns x1..x21 and y1..y21,
    normalization returns; the scale factor is
    [sqrt((x13 - x1)^2 + (y13 - y1)^2)] taken from the values the frame held
    on entry; every [x_i] becomes [(x_i - x1) / scale] and every [y_i]
    becomes [(y_i - y1) / scale], with [x1], [y1] and the scale those of the
    entry frame at every turn of the loop; every [z_i] holds what it held.
    The scale factor and the quotients are spelled out in float64
    operations, the square as a product.  This is so for every scale
    factor, zero or not. *)
Theorem normalize_landmarks_spec (df : DataFrame) (h : heap) (x y : nat -> float) :
  wf h df ->
  (forall i, 1 <= i <= 21 ->
     cell h df (fkey "x" i) = Some (x i) /\ cell h df (fkey "y" i) = Some (y i)) ->
  let dx := (x 13%nat - x 1%nat)%float in
  let dy := (y 13%nat - y 1%nat)%float in
  let scale := PrimFloat.sqrt (dx * dx + dy * dy)%float in
  exists ev h' df',
    normalize_landmarks df h = (ev, h', Ok df') /\
    (forall i, 1 <= i <= 21 ->
       cell h' df' (fkey "x" i) = Some ((x i - x 1%nat) / scale)%float /\
       cell h' df' (fkey "y" i) = Some ((y i - y 1%nat) / scale)%float) /\
    (forall i, cell h' df' (fkey "z" i) = cell h df (fkey "z" i)).
Proof.
  intros Hwf Hxy dx dy scale.
  destruct (Hxy 1 ltac:(lia)) as [Hx1 Hy1].
  destruct (Hxy 13 ltac:(lia)) as [Hx13 Hy13].
  destruct (values_cell _ _ _ _ Hx1) as (wxl & Hvx1 & Hwx).
  destruct (values_cell _ _ _ _ Hy1) as (wyl & Hvy1 & Hwy).
  destruct (values_cell _ _ _ _ Hx13) as (txl & Hvx13 & Htx).
  destruct (values_cell _ _ _ _ Hy13) as (tyl & Hvy13 & Hty).
  destruct (for_range_normalize wxl wyl (x 1) (y 1) scale 21 1 df h)
    as (h' & df' & Hloop & Hwf' & Hkeep & Hin & Hout); auto.
  { intros i Hi. destruct (Hxy i ltac:(lia)) as [-> ->]. by split. }
  assert (Hpost : forall i, 1 <= i <= 21 ->
            cell h' df' (fkey "x" i) = Some ((x i - x 1%nat) / scale)%float /\
            cell h' df' (fkey "y" i) = Some ((y i - y 1%nat) / scale)%float).
  { intros i Hi. destruct (Hin i ltac:(lia)) as [-> ->].
    by destruct (Hxy i Hi) as [-> ->]. }
  destruct (Hpost 1 ltac:(lia)) as [Hx1' Hy1'].
  destruct (Hpost 13 ltac:(lia)) as [Hx13' Hy13'].
  eexists _, h', df'. split; [|split; [exact Hpost|]].
  - unfold normalize_landmarks.
    run Hvx1. run Hvy1. run Hvx13. run Hvy13.
    run (load_run _ _ _ Htx). run (load_run _ _ _ Hwx).
    run (load_run _ _ _ Hty). run (load_run _ _ _ Hwy).
    change (hypot (x 13%nat - x 1%nat)%float (y 13%nat - y 1%nat)%float)
      with scale.
    run Hloop.
    run (getitem_cell _ _ _ _ Hx1'). run (getitem_cell _ _ _ _ Hy1').
    unfold emit at 1. unfold bind at 1.
    run (getitem_cell _ _ _ _ Hx13'). run (getitem_cell _ _ _ _ Hy13').
    reflexivity.
  - intros i. apply Hout. intros j _. split; [apply fkey_z_x|apply fkey_z_y].
Qed.

Lemma normalize_landmarks_spec_witness :
  wf sample_frame.1 sample_frame.2 /\
  exists ev h' df',
    normalize_landmarks sample_frame.2 sample_frame.1 = (ev, h', Ok df') /\
    (forall i, 1 <= i <= 21 ->
       cell h' df' (fkey "x" i)
         = Some ((coord sample_pose 0 i - 1)
                 / PrimFloat.sqrt (36 * 36 + 36 * 36))%float /\
       cell h' df' (fkey "y" i)
         = Some ((coord sample_pose 1 i - 2)
                 / PrimFloat.sqrt (36 * 36 + 36 * 36))%float) /\
    (forall i, cell h' df' (fkey "z" i) = cell sample_frame.1 sample_frame.2 (fkey "z" i)).
Proof.
  assert (Hwf : wf sample_frame.1 sample_frame.2).
  { apply map_Forall_to_list. vm_compute. repeat constructor. }
  split; [exact Hwf|].
  apply (normalize_landmarks_spec sample_frame.2 sample_frame.1
           (coord sample_pose 0) (coord sample_pose 1) Hwf).
  intros i Hi.
  do 22 (destruct i as [|i]; [first [lia | split; vm_compute; reflexivity]|]).
  lia.
Defined.

(** ** float64 facts

    The primitive operations are specified by the standard library through
    [Prim2SF]; the facts below are proved on that side. *)

Lemma SFcompare_antisym a b :
  SFcompare b a = option_map CompOpp (SFcompare a b).
Proof.
  destruct a as [[]|[]| |[] m e], b as [[]|[]| |[] m' e']; simpl; try reflexivity;
    change (Pos.compare_cont Eq) with Pos.compare;
    rewrite (Z.compare_antisym e e'); destruct (e ?= e')%Z; simpl; try reflexivity;
    rewrite (Pos.compare_antisym m m'); destruct (m ?= m')%positive; reflexivity.
Qed.

Lemma SFleb_total a b :
  SFcompare a b <> None -> SFleb a b = false -> SFleb b a = true.
Proof.
  unfold SFleb. rewrite (SFcompare_antisym a b).
  destruct (SFcompare a b) as [[]|]; simpl; congruence.
Qed.

Lemma SFleb_refl a : SFcompare a a <> None -> SFleb a a = true.
Proof.
  unfold SFleb.
  destruct a as [[]|[]| |[] m e]; simpl; try congruence;
    change (Pos.compare_cont Eq) with Pos.compare;
    rewrite Z.compare_refl, Pos.compare_refl; reflexivity.
Qed.

Lemma SFleb_trans a b c :
  SFleb a b = true -> SFleb b c = true -> SFleb a c = true.
Proof.
  unfold SFleb.
  destruct a as [[]|[]| |[] m1 e1], b as [[]|[]| |[] m2 e2],
    c as [[]|[]| |[] m3 e3]; simpl; try congruence;
    destruct (Z.compare_spec e1 e2), (Z.compare_spec e2 e3),
      (Z.compare_spec e1 e3); try lia; simpl; try congruence; subst;
    change (Pos.compare_cont Eq) with Pos.compare;
    destruct (Pos.compare_spec m1 m2), (Pos.compare_spec m2 m3),
      (Pos.compare_spec m1 m3); try lia; simpl; congruence.
Qed.

Lemma SFcompare_None a b :
  SFcompare a b = None -> a = S754_nan \/ b = S754_nan.
Proof.
  destruct a as [[]|[]| |[] m e], b as [[]|[]| |[] m' e']; simpl;
    try discriminate; auto.
Qed.

Lemma is_nan_Prim2SF x : PrimFloat.is_nan x = false -> Prim2SF x <> S754_nan.
Proof.
  unfold PrimFloat.is_nan. rewrite FloatAxioms.eqb_spec. intros H E. rewrite E in H.
  discriminate H.
Qed.

Lemma SFcompare_refl a : a <> S754_nan -> SFcompare a a = Some Eq.
Proof.
  destruct a as [[]|[]| |[] m e]; simpl; try congruence; intros _;
    change (Pos.compare_cont Eq) with Pos.compare;
    rewrite Z.compare_refl, Pos.compare_refl; reflexivity.
Qed.

Lemma Prim2SF_is_nan x : Prim2SF x <> S754_nan -> PrimFloat.is_nan x = false.
Proof.
  intros Hx. unfold PrimFloat.is_nan. rewrite FloatAxioms.eqb_spec. unfold SFeqb.
  by rewrite SFcompare_refl.
Qed.

Lemma leb_is_nan x y :
  (x <=? y)%float = true ->
  PrimFloat.is_nan x = false /\ PrimFloat.is_nan y = false.
Proof.
  rewrite FloatAxioms.leb_spec. unfold SFleb. intros H.
  split; apply Prim2SF_is_nan; intros E; rewrite E in H.
  - discriminate H.
  - by destruct (Prim2SF x).
Qed.

Lemma leb_refl x : PrimFloat.is_nan x = false -> (x <=? x)%float = true.
Proof.
  intros Hx%is_nan_Prim2SF. rewrite FloatAxioms.leb_spec. apply SFleb_refl.
  by intros [?|?]%SFcompare_None.
Qed.

Lemma leb_total x y :
  PrimFloat.is_nan x = false -> PrimFloat.is_nan y = false ->
  (x <=? y)%float = false -> (y <=? x)%float = true.
Proof.
  intros Hx%is_nan_Prim2SF Hy%is_nan_Prim2SF. rewrite !FloatAxioms.leb_spec.
  apply SFleb_total. by intros [?|?]%SFcompare_None.
Qed.

Lemma leb_trans x y z :
  (x <=? y)%float = true -> (y <=? z)%float = true -> (x <=? z)%float = true.
Proof. rewrite !FloatAxioms.leb_spec. apply SFleb_trans. Qed.

(** A finite float minus itself is [+0.0]. *)
Lemma sub_diag_finite x :
  PrimFloat.is_finite x = true -> (x - x)%float = 0%float.
Proof.
  unfold PrimFloat.is_finite, PrimFloat.is_nan, PrimFloat.is_infinity.
  rewrite !FloatAxioms.eqb_spec, FloatAxioms.abs_spec. intros H. apply Prim2SF_inj.
  rewrite FloatAxioms.sub_spec. change (Prim2SF 0) with (S754_zero false).
  change (Prim2SF infinity) with (S754_infinity false) in H.
  destruct (Prim2SF x) as [[]|[]| |s m e]; try discriminate H; try reflexivity.
  unfold SF64sub, SFsub. rewrite Z.sub_diag. reflexivity.
Qed.

(** ** The handler, path by path *)

Lemma predict_gesture_unloaded env req st :
  model env = None \/ label_encoder env = None ->
  predict_gesture env req st
  = ([], st, HTTPException 500 "Model or encoder not loaded").
Proof.
  unfold predict_gesture. intros [H|H]; rewrite H; [done|].
  by destruct (model env).
Qed.

Lemma predict_gesture_validated env req st clf le data landmarks :
  model env = Some clf -> label_encoder env = Some le ->
  body req = Ok data -> dict_get data "landmarks" = Ok landmarks ->
  truthy landmarks = true -> py_len landmarks = Ok 63 ->
  predict_gesture env req st = run_inference env clf le landmarks req st.
Proof.
  intros Hm Hl Hb Hd Ht Hn. unfold predict_gesture.
  by rewrite Hm, Hl, Hb, Hd, Ht, Hn.
Qed.

Lemma validated_inv env req :
  validated env req = true ->
  exists clf le data landmarks,
    model env = Some clf /\ label_encoder env = Some le /\
    body req = Ok data /\ dict_get data "landmarks" = Ok landmarks /\
    truthy landmarks = true /\ py_len landmarks = Ok 63.
Proof.
  unfold validated.
  destruct (model env) as [clf|]; [|done].
  destruct (label_encoder env) as [le|]; [|done].
  destruct (body req) as [data|]; [|done].
  destruct (dict_get data "landmarks") as [landmarks|] eqn:Hd; [|done].
  intros [Ht Hn]%andb_true_iff.
  destruct (py_len landmarks) as [n|] eqn:Hl; [|done].
  apply Nat.eqb_eq in Hn; subst n. by exists clf, le, data, landmarks.
Qed.

(** A request that does not pass validation is answered without touching
    the counters, the frame or the classifier. *)
Lemma predict_gesture_rejected env req st :
  validated env req = false ->
  (predict_gesture env req st).1.2 = st /\
  succeeded (predict_gesture env req st).2 = false /\
  existsb inference_event (predict_gesture env req st).1.1 = false.
Proof.
  unfold validated, predict_gesture.
  destruct (model env) as [clf|]; [|done].
  destruct (label_encoder env) as [le|]; [|done].
  destruct (body req) as [data|]; [|done].
  destruct (dict_get data "landmarks") as [landmarks|]; [|done].
  destruct (truthy landmarks); simpl; [|done].
  destruct (py_len landmarks) as [n|]; [|done].
  destruct (Nat.eqb n 63); simpl; done.
Qed.

Lemma run_inference_metrics env clf le landmarks req st :
  (run_inference env clf le landmarks req st).1.2
  = if succeeded (run_inference env clf le landmarks req st).2
    then record_success (latency req) st else record_error st.
Proof.
  unfold run_inference.
  by destruct (infer env clf le landmarks []) as [[ev h] [[[g d] c]|e]].
Qed.

Lemma run_inference_reply env clf le landmarks req st st' :
  (run_inference env clf le landmarks req st).2
  = (run_inference env clf le landmarks req st').2.
Proof.
  unfold run_inference.
  by destruct (infer env clf le landmarks []) as [[ev h] [[[g d] c]|e]].
Qed.

(** The reply and the events of a request do not depend on the counters. *)
Lemma reply_independent env req st st' :
  (predict_gesture env req st).2 = (predict_gesture env req st').2.
Proof.
  unfold predict_gesture.
  destruct (model env) as [clf|]; [|done].
  destruct (label_encoder env) as [le|]; [|done].
  destruct (body req) as [data|]; [|done].
  destruct (dict_get data "landmarks") as [landmarks|]; [|done].
  destruct (truthy landmarks); simpl; [|done].
  destruct (py_len landmarks) as [n|]; [|done].
  destruct (Nat.eqb n 63); simpl; [|done].
  apply run_inference_reply.
Qed.

(** What one request does to the counters. *)
Lemma metrics_step env req st :
  (predict_gesture env req st).1.2
  = if is_success env req then record_success (latency req) st
    else if is_failure env req then record_error st
    else st.
Proof.
  unfold is_failure, is_success, reply_to.
  rewrite (reply_independent env req metrics0 st).
  destruct (validated env req) eqn:Hv.
  - destruct (validated_inv _ _ Hv) as (clf & le & data & l & ? & ? & ? & ? & ? & ?).
    rewrite (predict_gesture_validated env req st clf le data l) by done.
    rewrite run_inference_metrics.
    by destruct (succeeded _).
  - destruct (predict_gesture_rejected env req st Hv) as (-> & -> & _). done.
Qed.

(** ** The counters over a sequence of calls *)

Lemma serve_counters env reqs : forall st,
  prediction_count (serve env reqs st)
    = (prediction_count st + Z.of_nat (count (is_success env) reqs))%Z /\
  error_count (serve env reqs st)
    = (error_count st + Z.of_nat (count (is_failure env) reqs))%Z /\
  latency_sum (serve env reqs st) = latency_total env reqs (latency_sum st).
Proof.
  unfold count, latency_total.
  induction reqs as [|req reqs IH]; intros st; simpl.
  - repeat split; lia.
  - destruct (IH (predict_gesture env req st).1.2) as (Hp & He & Hl).
    rewrite Hp, He, Hl, metrics_step. clear.
    unfold is_failure, is_success.
    destruct (succeeded (reply_to env req)); simpl.
    + rewrite andb_false_r. simpl. repeat split; lia.
    + rewrite andb_true_r.
      destruct (validated env req); simpl; repeat split; lia.
Qed.

(** An [int] below 2^63 as a float64 is what the hardware conversion
    gives. *)
Lemma float_of_int_uint63 (z : Z) :
  (0 <= z < 2 ^ 63)%Z -> float_of_int z = PrimFloat.of_uint63 (Uint63.of_Z z).
Proof.
  intros Hz. unfold float_of_int.
  rewrite <- (SF2Prim_Prim2SF (PrimFloat.of_uint63 _)), of_uint63_spec.
  rewrite Uint63.of_Z_spec, Z.mod_small; [reflexivity|].
  exact Hz.
Qed.

Lemma int_truediv_counts (m d : Z) :
  (0 <= m)%Z -> (0 < d)%Z ->
  int_truediv m d
  = if (m <? 2 ^ 53)%Z && (d <? 2 ^ 53)%Z
    then (PrimFloat.of_uint63 (Uint63.of_Z m)
          / PrimFloat.of_uint63 (Uint63.of_Z d))%float
    else nearest_ratio (Z.to_N m) (Z.to_N d).
Proof.
  intros Hm Hd. unfold int_truediv.
  rewrite (Z.abs_eq m), (Z.abs_eq d) by lia.
  destruct (m <? 2 ^ 53)%Z eqn:Hm53, (d <? 2 ^ 53)%Z eqn:Hd53; simpl;
    try (destruct m as [|p|p], d as [|q|q]; try lia; reflexivity).
  apply Z.ltb_lt in Hm53, Hd53.
  rewrite !float_of_int_uint63 by lia. reflexivity.
Qed.

(** C3.  After any sequence of classify calls from process start, of which
    N succeed and M fail after passing validation, the metrics report
    gives prediction_count = N, error_count = M,
    error_rate = M / max(N, 1), and average_latency = the float64 sum of
    the N latencies in call order divided by N, or 0.0 when N = 0.  The
    quotient of the two counts is the exact quotient rounded once to
    float64: the float64 division of the counts when both are below 2^53,
    where they are float64 values themselves, and the division carried out
    on the integers beyond.  The divisor of the latencies is N rounded to
    float64. *)
Theorem metrics_after_calls (env : Env) (reqs : list Request)
    (app_start_time clock : float) (today : string) :
  let N := Z.of_nat (count (is_success env) reqs) in
  let M := Z.of_nat (count (is_failure env) reqs) in
  let report :=
    model_metrics (get_metrics app_start_time clock today (serve env reqs metrics0)) in
  report_prediction_count report = N /\
  report_error_count report = M /\
  error_rate report
    = (if (M <? 2 ^ 53)%Z && (Z.max N 1 <? 2 ^ 53)%Z
       then (PrimFloat.of_uint63 (Uint63.of_Z M)
             / PrimFloat.of_uint63 (Uint63.of_Z (Z.max N 1)))%float
       else nearest_ratio (Z.to_N M) (Z.to_N (Z.max N 1))) /\
  average_latency report
    = if (0 <? N)%Z
      then (latency_total env reqs 0
            / SF2Prim (binary_normalize prec emax N 0 false))%float
      else 0%float.
Proof.
  intros N M report.
  destruct (serve_counters env reqs metrics0) as (Hp & He & Hl).
  simpl in Hp, He, Hl. unfold report, get_metrics; cbn [model_metrics
    report_prediction_count report_error_count error_rate average_latency].
  rewrite Hp, He, Hl. fold N M.
  split; [done|]. split; [done|]. split; [|done].
  apply int_truediv_counts; lia.
Qed.

(** Two successes and one failure among four calls: error_rate 0.5,
    average latency 0.5 s. *)
Lemma metrics_after_four_calls :
  model_metrics
    (get_metrics 0 10 "2024-01-01T00:00:00"
       (serve (service strict)
          [post (landmarks_of sample_pose); post (landmarks_of zeros);
           post JNull; post (landmarks_of sample_pose)] metrics0))
  = {| report_prediction_count := 2; report_error_count := 1;
       error_rate := 0.5; average_latency := 0.5 |}.
Proof. vm_compute. reflexivity. Qed.

(** C7.  A request that passed validation and whose inference raises an
    exception with message [e] adds exactly one to error_count, leaves
    prediction_count and latency_sum as they were, and is answered by an
    internal error whose detail is [e] itself; the request after it is
    answered as it would have been without the failure. *)
Theorem inference_failure (env : Env) (req : Request) (st : Metrics)
    (clf : Classifier) (le : LabelEncoder) (data landmarks : json)
    (ev : list event) (h : heap) (e : string) :
  model env = Some clf -> label_encoder env = Some le ->
  body req = Ok data -> dict_get data "landmarks" = Ok landmarks ->
  truthy landmarks = true -> py_len landmarks = Ok 63 ->
  infer env clf le landmarks [] = (ev, h, Raise e) ->
  let st' := (predict_gesture env req st).1.2 in
  (predict_gesture env req st).2 = HTTPException 500 e /\
  error_count st' = (error_count st + 1)%Z /\
  prediction_count st' = prediction_count st /\
  latency_sum st' = latency_sum st /\
  forall next, (predict_gesture env next st').2 = (predict_gesture env next st).2.
Proof.
  intros Hm Hl Hb Hd Ht Hn He st'. unfold st'.
  rewrite (predict_gesture_validated env req st clf le data landmarks) by done.
  unfold run_inference. rewrite He. simpl.
  repeat split; auto using reply_independent.
Qed.

(** C8.  A request that fails validation (an artifact not loaded, a payload
    that is not a JSON object, landmarks that are not 63 long) leaves
    prediction_count, error_count and latency_sum as they were. *)
Theorem validation_failure_frame (env : Env) (req : Request) (st : Metrics) :
  validated env req = false ->
  let st' := (predict_gesture env req st).1.2 in
  prediction_count st' = prediction_count st /\
  error_count st' = error_count st /\
  latency_sum st' = latency_sum st.
Proof.
  intros Hv st'. unfold st'.
  by destruct (predict_gesture_rejected env req st Hv) as (-> & _).
Qed.

(** C10.  In every state the report's input_validation_errors is the
    inference error counter; after any sequence of calls it is the number
    of calls that failed after validation; and a request rejected by
    validation leaves it as it was. *)
Theorem input_validation_errors_is_error_count (env : Env)
    (app_start_time clock : float) (today : string) :
  let field st :=
    input_validation_errors (data_metrics (get_metrics app_start_time clock today st)) in
  (forall st, field st = error_count st) /\
  (forall reqs, field (serve env reqs metrics0)
                = Z.of_nat (count (is_failure env) reqs)) /\
  (forall req st, validated env req = false ->
                  field (predict_gesture env req st).1.2 = field st).
Proof.
  intros field. unfold field; simpl. split; [done|split].
  - intros reqs. by destruct (serve_counters env reqs metrics0) as (_ & -> & _).
  - intros req st Hv.
    by destruct (predict_gesture_rejected env req st Hv) as (-> & _).
Qed.

(** ** The service on a list of 63 floats *)

Lemma build_features_floats env (row : list float) :
  length row = 63 ->
  exists ev h,
    build_features env (JArr (JFloat <$> row)) [] = (ev, h, Ok (normalized row)) /\
    forallb inference_event ev = true.
Proof.
  intros H.
  do 63 (destruct row as [|? row]; [discriminate H|]).
  destruct row; [|discriminate H].
  eexists _, _. split; [vm_compute; reflexivity|reflexivity].
Qed.

(** The classifier is called outside the store. *)
Lemma classify_heap clf le X (h : heap) :
  classify clf le X h
  = ((classify clf le X []).1.1, h, (classify clf le X []).2).
Proof.
  unfold classify, bind, lift, emit, ret.
  destruct (predict clf X) as [ys|]; [|done].
  destruct (item0 ys) as [prediction|]; [|done].
  destruct (predict_proba clf X) as [ps|]; [|done].
  destruct (item0 ps) as [probabilities|]; [|done].
  destruct (np_max probabilities) as [confidence|]; [|done].
  destruct (inverse_transform le [prediction]) as [labels|]; [|done].
  destruct (item0 labels) as [gesture|]; done.
Qed.

Lemma predict_gesture_floats env req st clf le data (row : list float) :
  model env = Some clf -> label_encoder env = Some le ->
  body req = Ok data ->
  dict_get data "landmarks" = Ok (JArr (JFloat <$> row)) ->
  length row = 63 ->
  (predict_gesture env req st).2
    = match (classify clf le (normalized row) []).2 with
      | Ok (g, d, c) =>
          Return {| gesture := g; direction := d; confidence := c;
                    timestamp := now req |}
      | Raise e => HTTPException 500 e
      end /\
  (predict_gesture env req st).1.2
    = match (classify clf le (normalized row) []).2 with
      | Ok _ => record_success (latency req) st
      | Raise _ => record_error st
      end.
Proof.
  intros Hm Hl Hb Hd Hn.
  rewrite (predict_gesture_validated env req st clf le data (JArr (JFloat <$> row)));
    try done.
  - destruct (build_features_floats env row Hn) as (ev & h & Hbuild & _).
    unfold run_inference, infer. run Hbuild. rewrite classify_heap.
    destruct (classify clf le (normalized row) []) as [[ev' h'] [[[g d] c]|e]]; done.
  - simpl. by rewrite length_fmap, Hn.
  - simpl. by rewrite length_fmap, Hn.
Qed.

Lemma SFeqb_finite s m e s' m' e' :
  SFeqb (S754_finite s m e) (S754_finite s' m' e') = true ->
  s = s' /\ m = m' /\ e = e'.
Proof.
  unfold SFeqb, SFcompare. change (Pos.compare_cont Eq) with Pos.compare.
  destruct s, s'; try discriminate;
    destruct (e ?= e')%Z eqn:He; try discriminate;
    destruct (m ?= m')%positive eqn:Hm; try discriminate;
    intros _; apply Z.compare_eq in He; apply Pos.compare_eq in Hm; auto.
Qed.

(** Two floats that compare equal, one of them finite, differ by a zero. *)
Lemma sub_eqb_zero x y :
  PrimFloat.is_finite x = true -> (y =? x)%float = true ->
  (y - x)%float = 0%float \/ (y - x)%float = neg_zero.
Proof.
  unfold PrimFloat.is_finite, PrimFloat.is_nan, PrimFloat.is_infinity.
  rewrite !FloatAxioms.eqb_spec, FloatAxioms.abs_spec. intros Hfin Heq.
  change (Prim2SF infinity) with (S754_infinity false) in Hfin.
  assert (Hz : exists s, Prim2SF (y - x) = S754_zero s).
  { rewrite FloatAxioms.sub_spec. unfold SFeqb in Heq.
    destruct (Prim2SF y) as [[]|[]| |[] m e], (Prim2SF x) as [[]|[]| |[] m' e'];
      try (simpl in Hfin; discriminate Hfin);
      try (simpl in Heq; discriminate Heq);
      try (eexists; reflexivity);
      apply SFeqb_finite in Heq as (_ & -> & ->);
      (exists false; unfold SF64sub, SFsub; rewrite Z.sub_diag; reflexivity). }
  destruct Hz as [[] Hz]; [right|left]; apply Prim2SF_inj; rewrite Hz; reflexivity.
Qed.

Lemma sub_eqb_nonfinite x y :
  PrimFloat.is_finite x = false -> (y =? x)%float = true ->
  (y - x)%float = nan.
Proof.
  unfold PrimFloat.is_finite, PrimFloat.is_nan, PrimFloat.is_infinity.
  rewrite !FloatAxioms.eqb_spec, FloatAxioms.abs_spec. intros Hfin Heq.
  change (Prim2SF infinity) with (S754_infinity false) in Hfin.
  apply Prim2SF_inj. rewrite FloatAxioms.sub_spec.
  change (Prim2SF nan) with S754_nan.
  destruct (Prim2SF x) as [[]|[]| |s m e] eqn:Hx;
    try (unfold SFeqb in Hfin; rewrite SFcompare_refl in Hfin by discriminate;
         simpl in Hfin; discriminate Hfin);
    destruct (Prim2SF y) as [[]|[]| |s' m' e'];
    try (simpl in Heq; discriminate Heq); reflexivity.
Qed.

Lemma add_nan_r x : (x + nan)%float = nan.
Proof.
  apply Prim2SF_inj. rewrite FloatAxioms.add_spec.
  change (Prim2SF nan) with S754_nan. by destruct (Prim2SF x) as [[]|[]| |[] m e].
Qed.

Lemma add_nan_l x : (nan + x)%float = nan.
Proof.
  apply Prim2SF_inj. rewrite FloatAxioms.add_spec.
  change (Prim2SF nan) with S754_nan. by destruct (Prim2SF x) as [[]|[]| |[] m e].
Qed.

Lemma div_nan_l x : (nan / x)%float = nan.
Proof.
  apply Prim2SF_inj. rewrite FloatAxioms.div_spec.
  change (Prim2SF nan) with S754_nan. by destruct (Prim2SF x) as [[]|[]| |[] m e].
Qed.

Lemma div_nan_r x : (x / nan)%float = nan.
Proof.
  apply Prim2SF_inj. rewrite FloatAxioms.div_spec.
  change (Prim2SF nan) with S754_nan. by destruct (Prim2SF x) as [[]|[]| |[] m e].
Qed.

(** Two floats that compare equal differ by a zero, or by NaN when they are
    infinite. *)
Lemma sub_eqb x y :
  (y =? x)%float = true ->
  (y - x)%float = 0%float \/ (y - x)%float = neg_zero \/ (y - x)%float = nan.
Proof.
  intros H. destruct (PrimFloat.is_finite x) eqn:Hf.
  - destruct (sub_eqb_zero x y Hf H); auto.
  - right; right. by apply sub_eqb_nonfinite.
Qed.

(** The scale factor of two coinciding landmarks is zero, or NaN when a
    coordinate is infinite. *)
Lemma scale_zero_or_nan dx dy :
  dx = 0%float \/ dx = neg_zero \/ dx = nan ->
  dy = 0%float \/ dy = neg_zero \/ dy = nan ->
  PrimFloat.sqrt (dx * dx + dy * dy) = 0%float \/
  PrimFloat.sqrt (dx * dx + dy * dy) = nan.
Proof.
  intros [->|[->| ->]] [->|[->| ->]]; first [by left | by right].
Qed.

Lemma sub_diag x : (x - x)%float = 0%float \/ (x - x)%float = nan.
Proof.
  destruct (PrimFloat.is_finite x) eqn:Hf.
  - left. by apply sub_diag_finite.
  - right. apply Prim2SF_inj. rewrite FloatAxioms.sub_spec.
    change (Prim2SF nan) with S754_nan.
    revert Hf. unfold PrimFloat.is_finite, PrimFloat.is_nan, PrimFloat.is_infinity.
    rewrite !FloatAxioms.eqb_spec, FloatAxioms.abs_spec.
    change (Prim2SF infinity) with (S754_infinity false).
    destruct (Prim2SF x) as [[]|[]| |s m e]; try reflexivity; intros Hf;
      unfold SFeqb in Hf; rewrite SFcompare_refl in Hf by discriminate;
      simpl in Hf; discriminate Hf.
Qed.

Lemma div_degenerate n s :
  n = 0%float \/ n = nan -> s = 0%float \/ s = nan -> (n / s)%float = nan.
Proof. intros [->| ->] [->| ->]; reflexivity. Qed.

(** ** The degenerate pose *)

Lemma row_lookup (row : list float) j :
  j < length row -> row !! j = Some (default 0%float (row !! j)).
Proof. intros [v ->]%lookup_lt_is_Some. done. Qed.

Lemma normalized_x (row : list float) n :
  3 * (n - 1) < length row ->
  normalized row !! (3 * (n - 1))
  = Some ((coord row 0 n - coord row 0 1) / scale_of row)%float.
Proof.
  intros Hn.
  assert (Hmod : (3 * (n - 1)) `mod` 3 = 0)
    by (rewrite Nat.mul_comm; apply Nat.Div0.mod_mul).
  unfold normalized. rewrite list_lookup_imap, (row_lookup row) by done.
  cbn -[Nat.modulo Nat.mul]. rewrite Hmod.
  assert (Hc : coord row 0 n = default 0%float (row !! (3 * (n - 1))))
    by (unfold coord; by rewrite Nat.add_0_r).
  by rewrite Hc.
Qed.

Lemma normalized_y (row : list float) n :
  3 * (n - 1) + 1 < length row ->
  normalized row !! (3 * (n - 1) + 1)
  = Some ((coord row 1 n - coord row 1 1) / scale_of row)%float.
Proof.
  intros Hn.
  assert (Hmod : (3 * (n - 1) + 1) `mod` 3 = 1)
    by (rewrite Nat.add_comm, Nat.mul_comm; apply Nat.Div0.mod_add).
  unfold normalized. rewrite list_lookup_imap, (row_lookup row) by done.
  cbn -[Nat.modulo Nat.mul]. by rewrite Hmod.
Qed.

(** C1.  When landmark 1 and landmark 13 of a 63-float request lie at the
    same (x, y) position, the scale factor, sqrt((x13 - x1)^2 + (y13 -
    y1)^2) in float64, is 0 (NaN if a coordinate is infinite), and the frame
    that normalization hands to the classifier holds NaN at x1.  The
    classifier of the specification, like the scikit-learn estimator the
    service loads, refuses such a frame: the handler's [except] turns the
    exception into an internal error of status 500 carrying its message and
    counts it in error_count.  No success response is returned. *)
Theorem degenerate_pose (env : Env) (req : Request) (st : Metrics)
    (clf : Classifier) (le : LabelEncoder) (data : json) (row : list float) :
  model env = Some clf -> label_encoder env = Some le ->
  rejects_nan clf ->
  body req = Ok data ->
  dict_get data "landmarks" = Ok (JArr (JFloat <$> row)) ->
  length row = 63 ->
  (coord row 0 13 =? coord row 0 1)%float = true ->
  (coord row 1 13 =? coord row 1 1)%float = true ->
  let dx := (coord row 0 13 - coord row 0 1)%float in
  let dy := (coord row 1 13 - coord row 1 1)%float in
  let scale := PrimFloat.sqrt (dx * dx + dy * dy)%float in
  (PrimFloat.is_finite (coord row 0 1) = true ->
   PrimFloat.is_finite (coord row 1 1) = true -> scale = 0%float) /\
  (scale = 0%float \/ scale = nan) /\
  (exists ev h,
     build_features env (JArr (JFloat <$> row)) [] = (ev, h, Ok (normalized row))) /\
  normalized row !! 0 = Some ((coord row 0 1 - coord row 0 1) / scale)%float /\
  normalized row !! 0 = Some nan /\
  (exists e,
     predict clf (normalized row) = Raise e /\
     (predict_gesture env req st).2 = HTTPException 500 e /\
     render (predict_gesture env req st).2 = Status 500) /\
  (predict_gesture env req st).1.2 = record_error st /\
  (forall r, (predict_gesture env req st).2 <> Return r).
Proof.
  intros Hm Hl Hrej Hb Hd Hn Hx Hy dx dy scale.
  pose proof (sub_eqb _ _ Hx) as Hdx. pose proof (sub_eqb _ _ Hy) as Hdy.
  fold dx in Hdx. fold dy in Hdy.
  assert (Hs : scale = 0%float \/ scale = nan) by (by apply scale_zero_or_nan).
  assert (H0 : normalized row !! 0
               = Some ((coord row 0 1 - coord row 0 1) / scale)%float).
  { exact (normalized_x row 1 ltac:(simpl; lia)). }
  assert (Hnan : normalized row !! 0 = Some nan).
  { rewrite H0. f_equal. apply div_degenerate; [apply sub_diag|exact Hs]. }
  destruct (Hrej (normalized row)) as [e He].
  { apply existsb_exists. exists nan. split; [|reflexivity].
    apply list_elem_of_In. by eapply list_elem_of_lookup_2. }
  assert (Hc : (classify clf le (normalized row) []).2 = Raise e).
  { unfold classify, bind, lift, emit, ret. by rewrite He. }
  destruct (predict_gesture_floats env req st clf le data row Hm Hl Hb Hd Hn)
    as [Hr Hst].
  rewrite Hc in Hr, Hst.
  split.
  { intros Hfx Hfy. unfold scale, dx, dy.
    destruct (sub_eqb_zero _ _ Hfx Hx) as [->| ->];
      destruct (sub_eqb_zero _ _ Hfy Hy) as [->| ->]; reflexivity. }
  split; [exact Hs|]. split.
  { destruct (build_features_floats env row Hn) as (ev & h & Hbuild & _). eauto. }
  split; [exact H0|]. split; [exact Hnan|]. split.
  { exists e. rewrite Hr. done. }
  split; [exact Hst|]. intros r. by rewrite Hr.
Qed.

Lemma degenerate_pose_witness :
  rejects_nan strict /\
  (exists e,
     predict strict (normalized zeros) = Raise e /\
     (predict_gesture (service strict) (post (landmarks_of zeros)) metrics0).2
       = HTTPException 500 e /\
     render (predict_gesture (service strict) (post (landmarks_of zeros)) metrics0).2
       = Status 500) /\
  (predict_gesture (service strict) (post (landmarks_of zeros)) metrics0).1.2
    = record_error metrics0 /\
  (forall r,
     (predict_gesture (service strict) (post (landmarks_of zeros)) metrics0).2
       <> Return r).
Proof.
  assert (Hrej : rejects_nan strict).
  { intros X HX. simpl. rewrite HX. by eexists. }
  split; [exact Hrej|].
  destruct (degenerate_pose (service strict) (post (landmarks_of zeros)) metrics0
              strict gestures (landmarks_of zeros) zeros)
    as (_ & _ & _ & _ & _ & He & Hc & Hr); try reflexivity; [exact Hrej|].
  split; [exact He|]. split; [exact Hc|exact Hr].
Defined.

(** ** The maximum of the probabilities *)

Lemma fold_maximum (l : list float) : forall acc,
  PrimFloat.is_nan acc = false ->
  (forall q, q ∈ l -> PrimFloat.is_nan q = false) ->
  let m := fold_left maximum l acc in
  (m = acc \/ m ∈ l) /\ (acc <=? m)%float = true /\
  forall q, q ∈ l -> (q <=? m)%float = true.
Proof.
  induction l as [|x l IH]; intros acc Hacc Hl; simpl.
  - split; [by left|]. split; [by apply leb_refl|]. by intros q ?%elem_of_nil.
  - assert (Hx : PrimFloat.is_nan x = false) by (apply Hl; left).
    assert (Hl' : forall q, q ∈ l -> PrimFloat.is_nan q = false)
      by (intros q Hq; apply Hl; by right).
    unfold maximum at 2 4 6 8. rewrite Hacc, orb_false_r.
    destruct (x <=? acc)%float eqn:Hle.
    + destruct (IH acc Hacc Hl') as (Hin & Hge & Hall).
      split; [destruct Hin; [by left|right; by right]|].
      split; [done|].
      intros q [->|Hq]%elem_of_cons; [by eapply leb_trans|by apply Hall].
    + destruct (IH x Hx Hl') as (Hin & Hge & Hall).
      split; [right; destruct Hin as [->|]; [left|by right]|].
      split; [eapply leb_trans; [by apply leb_total|done]|].
      intros q [->|Hq]%elem_of_cons; [done|by apply Hall].
Qed.

Lemma np_max_spec (p : list float) :
  p <> [] -> forallb probability p = true ->
  exists m, np_max p = Ok m /\ m ∈ p /\ probability m = true /\
            forall q, q ∈ p -> (q <=? m)%float = true.
Proof.
  intros Hne Hp.
  assert (Hprob : forall q, q ∈ p -> probability q = true).
  { intros q Hq%list_elem_of_In. by apply (proj1 (forallb_forall _ _) Hp). }
  assert (Hnan : forall q, q ∈ p -> PrimFloat.is_nan q = false).
  { intros q [H0 _]%Hprob%andb_true_iff. by apply leb_is_nan in H0 as [_ ?]. }
  destruct p as [|x l]; [done|]. simpl.
  destruct (fold_maximum l x) as (Hin & Hge & Hall).
  { apply Hnan. left. }
  { intros q Hq. apply Hnan. by right. }
  exists (fold_left maximum l x).
  assert (Hm : fold_left maximum l x ∈ x :: l).
  { destruct Hin as [->|]; [left|by right]. }
  split; [done|]. split; [done|]. split; [by apply Hprob|].
  intros q [->|Hq]%elem_of_cons; [done|by apply Hall].
Qed.

(** ** The decoder *)

Lemma inverse_transform_one le (c : Z) :
  in_vocabulary le c = true ->
  exists g, inverse_transform le [c] = Ok [g] /\
            classes_ le !! Z.to_nat c = Some g.
Proof.
  intros Hc. unfold inverse_transform.
  rewrite filter_cons_False, filter_nil by (by rewrite Hc). simpl.
  unfold in_vocabulary in Hc. apply andb_true_iff in Hc as [H0 H1].
  apply Z.leb_le in H0. apply Z.ltb_lt in H1.
  destruct (lookup_lt_is_Some_2 (classes_ le) (Z.to_nat c)) as [g Hg]; [lia|].
  exists g. by rewrite Hg.
Qed.

(** ** The claims about the reply *)

(** C6, as the code has it.  For a request of 63 floats, when [predict]
    answers a class the decoder knows and [predict_proba] answers a
    non-empty row of probabilities, the service answers with a success
    response; its confidence is the maximum of that row (an entry of it
    that no entry exceeds), hence in [0, 1]; its gesture is the decoder's
    label for the class that [predict] answered, hence of the decoder's
    vocabulary; its direction is the mapping's entry for that gesture. *)
Theorem classification_result (env : Env) (req : Request) (st : Metrics)
    (clf : Classifier) (le : LabelEncoder) (data : json) (row : list float)
    (c : Z) (cs : list Z) (p : list float) (ps : list (list float)) :
  model env = Some clf -> label_encoder env = Some le ->
  body req = Ok data ->
  dict_get data "landmarks" = Ok (JArr (JFloat <$> row)) ->
  length row = 63 ->
  predict clf (normalized row) = Ok (c :: cs) ->
  predict_proba clf (normalized row) = Ok (p :: ps) ->
  p <> [] -> forallb probability p = true ->
  in_vocabulary le c = true ->
  exists r,
    (predict_gesture env req st).2 = Return r /\
    confidence r ∈ p /\
    (forall q, q ∈ p -> (q <=? confidence r)%float = true) /\
    probability (confidence r) = true /\
    classes_ le !! Z.to_nat c = Some (gesture r) /\
    gesture r ∈ classes_ le /\
    direction r = GESTURE_MAPPING !! gesture r.
Proof.
  intros Hm Hl Hb Hd Hn Hpred Hproba Hne Hp Hc.
  destruct (np_max_spec p Hne Hp) as (m & Hmax & Hin & Hpm & Hall).
  destruct (inverse_transform_one le c Hc) as (g & Hinv & Hg).
  destruct (predict_gesture_floats env req st clf le data row) as [Hr _]; try done.
  assert (Hcl : (classify clf le (normalized row) []).2
                = Ok (g, GESTURE_MAPPING !! g, m)).
  { unfold classify, bind, lift, emit, ret.
    rewrite Hpred, Hproba. simpl. rewrite Hmax, Hinv. done. }
  rewrite Hcl in Hr.
  eexists. split; [exact Hr|]. simpl.
  repeat split; try done. by eapply list_elem_of_lookup_2.
Qed.

Lemma classification_result_witness :
  exists r,
    (predict_gesture (service strict) (post (landmarks_of sample_pose)) metrics0).2
      = Return r /\
    confidence r ∈ [0.125; 0.75; 0.0625; 0.0625]%float /\
    (forall q, q ∈ [0.125; 0.75; 0.0625; 0.0625]%float ->
               (q <=? confidence r)%float = true) /\
    probability (confidence r) = true /\
    classes_ gestures !! Z.to_nat 1 = Some (gesture r) /\
    gesture r ∈ classes_ gestures /\
    direction r = GESTURE_MAPPING !! gesture r.
Proof.
  apply (classification_result (service strict) (post (landmarks_of sample_pose))
           metrics0 strict gestures (landmarks_of sample_pose) sample_pose
           1%Z [] [0.125; 0.75; 0.0625; 0.0625]%float []);
    first [reflexivity | discriminate | vm_compute; reflexivity].
Defined.

(** C6 fails as stated: with a classifier whose [predict] and
    [predict_proba] disagree, on a pose whose scale factor is not zero, the
    response carries the label of the class [predict] answered ("dislike",
    class 0) next to the largest probability (0.75, that of class 1, whose
    label is "like"). *)
Lemma gesture_not_of_maximum :
  (scale_of sample_pose =? 0)%float = false /\
  predict_proba inconsistent (normalized sample_pose)
    = Ok [[0.25; 0.75; 0; 0]%float] /\
  label_of_maximum gestures [0.25; 0.75; 0; 0]%float = Some "like" /\
  (predict_gesture (service inconsistent) (post (landmarks_of sample_pose))
     metrics0).2
    = Return {| gesture := "dislike"; direction := Some "down";
                confidence := 0.75; timestamp := "2024-01-01T00:00:00" |}.
Proof. vm_compute. repeat split. Qed.

(** ** The claims about validation *)




(** C5, as the code has it.  The checks run in this order and the first
    that fails gives the reply: with the classifier or the decoder not
    loaded, every request gets the server error "Model or encoder not
    loaded", nothing logged; otherwise a payload that is not well-formed
    JSON, or is well-formed but not a JSON object, gets "Invalid JSON
    input"; otherwise landmarks that are empty or have a length other than
    63 get "Expected 63 landmark features".  A request that does not pass
    all three leaves no trace of feature construction or classification
    and its outcome is the same under any other classifier, decoder and
    array conversion. *)
Theorem checks_in_order (env : Env) (req : Request) (st : Metrics) :
  (model env = None \/ label_encoder env = None ->
   predict_gesture env req st
     = ([], st, HTTPException 500 "Model or encoder not loaded")) /\
  (is_Some (model env) -> is_Some (label_encoder env) ->
   (forall e, body req = Raise e ->
      (predict_gesture env req st).2 = HTTPException 400 "Invalid JSON input") /\
   (forall data, body req = Ok data -> (forall fields, data <> JObj fields) ->
      (predict_gesture env req st).2 = HTTPException 400 "Invalid JSON input") /\
   (forall fields landmarks,
      body req = Ok (JObj fields) ->
      landmarks = default JNull (assoc "landmarks" fields) ->
      truthy landmarks = false \/
        (exists n, py_len landmarks = Ok n /\ n <> 63) ->
      (predict_gesture env req st).2
        = HTTPException 400 "Expected 63 landmark features")) /\
  (validated env req = false ->
   existsb inference_event (predict_gesture env req st).1.1 = false /\
   forall env',
     (is_Some (model env') <-> is_Some (model env)) ->
     (is_Some (label_encoder env') <-> is_Some (label_encoder env)) ->
     predict_gesture env' req st = predict_gesture env req st).
Proof.
  split; [apply predict_gesture_unloaded|]. split.
  - intros [clf Hm] [le Hl]. unfold predict_gesture. rewrite Hm, Hl.
    split; [|split].
    + intros e ->. done.
    + intros data -> Hobj. destruct data; try done. by destruct (Hobj fields).
    + intros fields landmarks -> -> Hbad. simpl.
      destruct Hbad as [->|(n & -> & Hn)]; [done|].
      destruct (truthy _); simpl; [|done].
      by rewrite (proj2 (Nat.eqb_neq _ _) Hn).
  - intros Hv. split; [by apply predict_gesture_rejected|].
    intros env' Hm' Hl'. revert Hv. unfold validated, predict_gesture.
    destruct (model env) as [clf|], (model env') as [clf'|];
      try (exfalso; destruct Hm' as [H1 H2];
           first [by destruct H1 | by destruct H2]).
    2:{ intros _. by destruct (label_encoder env'). }
    destruct (label_encoder env) as [le|], (label_encoder env') as [le'|];
      try (exfalso; destruct Hl' as [H1 H2];
           first [by destruct H1 | by destruct H2]).
    2:{ done. }
    destruct (body req) as [data|]; [|done].
    destruct (dict_get data "landmarks") as [landmarks|]; [|done].
    destruct (truthy landmarks); simpl; [|done].
    destruct (py_len landmarks) as [n|]; [|done].
    destruct (Nat.eqb n 63); simpl; done.
Qed.

Lemma checks_in_order_witness :
  predict_gesture unloaded (post (landmarks_of zeros)) metrics0
    = ([], metrics0, HTTPException 500 "Model or encoder not loaded") /\
  (predict_gesture (service strict) (post (landmarks_of (repeat 0%float 7)))
     metrics0).2
    = HTTPException 400 "Expected 63 landmark features".
Proof.
  split.
  - destruct (checks_in_order unloaded (post (landmarks_of zeros)) metrics0)
      as (H & _).
    apply H. left; reflexivity.
  - destruct (checks_in_order (service strict)
                (post (landmarks_of (repeat 0%float 7))) metrics0)
      as (_ & H & _).
    destruct H as (_ & _ & H); [by eexists|by eexists|].
    eapply H; [reflexivity|reflexivity|].
    right. exists 7. split; [reflexivity|lia].
Defined.

(** C5 fails as stated: the payload [42] is well-formed JSON and the
    artifacts are loaded, and yet the request is answered "Invalid JSON
    input" and the count check does not run. *)
Lemma well_formed_json_refused :
  body (post (JInt 42)) = Ok (JInt 42) /\
  predict_gesture (service strict) (post (JInt 42)) metrics0
    = ([LogError "Invalid JSON input: 'int' object has no attribute 'get'"],
       metrics0, HTTPException 400 "Invalid JSON input").
Proof. vm_compute. split; reflexivity. Qed.

(** C9.  With both artifacts loaded, a payload that is
    a JSON object in which "landmarks" is absent, null or the empty list is
    rejected with "Expected 63 landmark features", the log saying "got
    none". *)
Theorem missing_landmarks (env : Env) (req : Request) (st : Metrics)
    (clf : Classifier) (le : LabelEncoder) (fields : list (string * json)) :
  model env = Some clf -> label_encoder env = Some le ->
  body req = Ok (JObj fields) ->
  assoc "landmarks" fields = None \/
    assoc "landmarks" fields = Some JNull \/
    assoc "landmarks" fields = Some (JArr []) ->
  predict_gesture env req st
    = (bad_length "none", st, HTTPException 400 "Expected 63 landmark features").
Proof.
  intros Hm Hl Hb Hf. unfold predict_gesture. rewrite Hm, Hl, Hb. simpl.
  by destruct Hf as [->|[->| ->]].
Qed.

Lemma missing_landmarks_witness :
  predict_gesture (service strict) (post (JObj [("hand", JStr "left")])) metrics0
    = (bad_length "none", metrics0,
       HTTPException 400 "Expected 63 landmark features").
Proof.
  apply (missing_landmarks (service strict) (post (JObj [("hand", JStr "left")]))
           metrics0 strict gestures [("hand", JStr "left")]);
    first [reflexivity | left; reflexivity].
Defined.

Lemma inference_failure_witness :
  validated (service strict) (post (landmarks_of zeros)) = true /\
  let st' := (predict_gesture (service strict) (post (landmarks_of zeros))
                metrics0).1.2 in
  (predict_gesture (service strict) (post (landmarks_of zeros)) metrics0).2
    = HTTPException 500 "Input X contains NaN." /\
  error_count st' = (error_count metrics0 + 1)%Z /\
  prediction_count st' = prediction_count metrics0 /\
  latency_sum st' = latency_sum metrics0 /\
  forall next,
    (predict_gesture (service strict) next st').2
    = (predict_gesture (service strict) next metrics0).2.
Proof.
  split; [reflexivity|].
  eapply (inference_failure (service strict) (post (landmarks_of zeros)) metrics0
            strict gestures (landmarks_of zeros) (JArr (JFloat <$> zeros)));
    vm_compute; reflexivity.
Defined.

Lemma validation_failure_frame_witness :
  validated (service strict) (post (landmarks_of (repeat 0%float 50))) = false /\
  let st' := (predict_gesture (service strict)
                (post (landmarks_of (repeat 0%float 50))) (mkMetrics 3 2 1.5)).1.2 in
  prediction_count st' = 3%Z /\ error_count st' = 2%Z /\
  latency_sum st' = 1.5%float.
Proof.
  split; [reflexivity|].
  apply (validation_failure_frame (service strict)
           (post (landmarks_of (repeat 0%float 50))) (mkMetrics 3 2 1.5)).
  reflexivity.
Defined.

(** * Further properties of the service *)

(** ** One request and the counters *)


(** X2.  After any sequence of classify calls from process start both
    counters are non-negative and their sum is the number of calls that
    passed validation: each such call is counted exactly once, as a
    prediction or as an error, and no rejected call is counted. *)
Theorem validated_calls_counted_once (env : Env) (reqs : list Request) :
  let st := serve env reqs metrics0 in
  (0 <= prediction_count st)%Z /\ (0 <= error_count st)%Z /\
  (prediction_count st + error_count st)%Z
    = Z.of_nat (count (validated env) reqs).
Proof.
  intros st. unfold st.
  destruct (serve_counters env reqs metrics0) as (-> & -> & _). simpl.
  assert (Hc : count (is_success env) reqs + count (is_failure env) reqs
               = count (validated env) reqs).
  { unfold count. induction reqs as [|req reqs IH]; [done|]. simpl.
    assert (Hs : is_success env req = true -> validated env req = true).
    { unfold is_success, reply_to. intros Hs.
      destruct (validated env req) eqn:Hv; [done|].
      destruct (predict_gesture_rejected env req metrics0 Hv) as (_ & Hr & _).
      congruence. }
    unfold is_failure in *. fold (is_success env req) in *.
    destruct (is_success env req); simpl.
    - rewrite Hs by done. simpl. lia.
    - destruct (validated env req); simpl; lia. }
  lia.
Qed.

(** X3.  The two integer counters do not depend on the order in which the
    calls arrive. *)
Theorem counters_order_independent (env : Env) (reqs reqs' : list Request) :
  Permutation reqs reqs' ->
  prediction_count (serve env reqs metrics0)
    = prediction_count (serve env reqs' metrics0) /\
  error_count (serve env reqs metrics0)
    = error_count (serve env reqs' metrics0).
Proof.
  intros Hp.
  destruct (serve_counters env reqs metrics0) as (-> & -> & _).
  destruct (serve_counters env reqs' metrics0) as (-> & -> & _).
  assert (Hc : forall p : Request -> bool, count p reqs = count p reqs').
  { intros p. unfold count. induction Hp; simpl; try congruence.
    - destruct (p x); simpl; congruence.
    - destruct (p x), (p y); simpl; congruence. }
  by rewrite !Hc.
Qed.

Lemma counters_order_independent_witness :
  prediction_count
    (serve (service strict)
       [post (landmarks_of zeros); post (landmarks_of sample_pose); post JNull]
       metrics0)
    = prediction_count
        (serve (service strict)
           [post JNull; post (landmarks_of sample_pose); post (landmarks_of zeros)]
           metrics0) /\
  error_count
    (serve (service strict)
       [post (landmarks_of zeros); post (landmarks_of sample_pose); post JNull]
       metrics0)
    = error_count
        (serve (service strict)
           [post JNull; post (landmarks_of sample_pose); post (landmarks_of zeros)]
           metrics0).
Proof.
  apply counters_order_independent.
  etransitivity; [apply Permutation_rev|]. reflexivity.
Defined.

(** ** What validation lets through *)

(** X4.  With both artifacts loaded, landmarks that are a true boolean or a
    non-zero number make [len(landmarks)] raise outside both [try] blocks:
    the TypeError leaves the handler uncaught, nothing is logged and no
    counter moves. *)
Theorem unsized_landmarks_escape (env : Env) (req : Request) (st : Metrics)
    (clf : Classifier) (le : LabelEncoder) (fields : list (string * json))
    (landmarks : json) :
  model env = Some clf -> label_encoder env = Some le ->
  body req = Ok (JObj fields) ->
  assoc "landmarks" fields = Some landmarks ->
  truthy landmarks = true ->
  (exists b, landmarks = JBool b) \/ (exists z, landmarks = JInt z) \/
    (exists f, landmarks = JFloat f) ->
  predict_gesture env req st
    = ([], st,
       Unhandled ("object of type '" +:+ type_name landmarks +:+ "' has no len()")).
Proof.
  intros Hm Hl Hb Ha Ht Hk. unfold predict_gesture.
  rewrite Hm, Hl, Hb. simpl. rewrite Ha. simpl. rewrite Ht. simpl.
  by destruct Hk as [[b ->]|[[z ->]|[f ->]]].
Qed.

Lemma unsized_landmarks_escape_witness :
  predict_gesture (service strict) (post (JObj [("landmarks", JInt 63)]))
    (mkMetrics 3 2 1.5)
    = ([], mkMetrics 3 2 1.5, Unhandled "object of type 'int' has no len()").
Proof.
  apply (unsized_landmarks_escape (service strict)
           (post (JObj [("landmarks", JInt 63)])) (mkMetrics 3 2 1.5)
           strict gestures [("landmarks", JInt 63)] (JInt 63));
    first [reflexivity | right; left; by eexists].
Defined.

(** A continuation byte of UTF-8 is one in 128..191. *)
Lemma continuation_range (c : ascii) :
  continuation c
  = Nat.leb 128 (nat_of_ascii c) && Nat.ltb (nat_of_ascii c) 192.
Proof. destruct c as [[] [] [] [] [] [] [] []]; vm_compute; reflexivity. Qed.

Lemma code_points_filter (s : string) :
  code_points s
  = length (List.filter
              (fun c => negb (Nat.leb 128 (nat_of_ascii c)
                              && Nat.ltb (nat_of_ascii c) 192))
              (list_ascii_of_string s)).
Proof.
  induction s as [|c s IH]; [done|].
  cbn [code_points list_ascii_of_string List.filter].
  rewrite <- continuation_range. destruct (continuation c); simpl; by rewrite IH.
Qed.

Lemma validated_spec (env : Env) (req : Request) :
  validated env req = true <->
  is_Some (model env) /\ is_Some (label_encoder env) /\
  exists fields landmarks,
    body req = Ok (JObj fields) /\
    assoc "landmarks" fields = Some landmarks /\
    ((exists items, landmarks = JArr items /\ length items = 63) \/
     (exists s, landmarks = JStr s /\ code_points s = 63) \/
     (exists fs, landmarks = JObj fs /\ length fs = 63)).
Proof.
  unfold validated. split.
  - destruct (model env) as [clf|]; [|done].
    destruct (label_encoder env) as [le|]; [|done].
    destruct (body req) as [[| | | | | |fields]|]; try done. simpl.
    destruct (assoc "landmarks" fields) as [landmarks|] eqn:Ha; [|done]. simpl.
    intros [_ Hn]%andb_true_iff.
    split; [done|]. split; [done|]. exists fields, landmarks.
    split; [done|]. split; [done|].
    destruct landmarks; try done; simpl in Hn; apply Nat.eqb_eq in Hn.
    + right; left. by eexists.
    + left. by eexists.
    + right; right. by eexists.
  - intros ([clf ->] & [le ->] & fields & landmarks & -> & Ha & Hk). simpl.
    rewrite Ha. simpl.
    destruct Hk as [(items & -> & Hn)|[(s & -> & Hn)|(fs & -> & Hn)]]; simpl;
      rewrite Hn; try reflexivity.
    destruct s; [discriminate Hn|reflexivity].
Qed.

Lemma validated_counters (env : Env) (req : Request) (st : Metrics) :
  validated env req = true <-> (predict_gesture env req st).1.2 <> st.
Proof.
  destruct (validated env req) eqn:Hv.
  - destruct (validated_inv _ _ Hv) as (clf & le & data & l & ? & ? & ? & ? & ? & ?).
    rewrite (predict_gesture_validated env req st clf le data l) by done.
    rewrite run_inference_metrics.
    destruct (succeeded _); (split; [intros _|done]).
    + intros Heq. apply (f_equal prediction_count) in Heq. simpl in Heq. lia.
    + intros Heq. apply (f_equal error_count) in Heq. simpl in Heq. lia.
  - destruct (predict_gesture_rejected env req st Hv) as (-> & _).
    split; [done|intros H; by destruct H].
Qed.

(** X5.  [predict_gesture] moves a counter, that is the request passed the
    three checks and ran the second [try], exactly when both artifacts are
    loaded, the payload is a JSON object, and its "landmarks" is a list of
    63 items, a string of 63 code points (the bytes of its UTF-8 form
    outside 128..191) or an object of 63 keys: the count check looks at the
    length only, not at what the landmarks are. *)
Theorem validated_iff (env : Env) (req : Request) (st : Metrics) :
  (predict_gesture env req st).1.2 <> st <->
  is_Some (model env) /\ is_Some (label_encoder env) /\
  exists fields landmarks,
    body req = Ok (JObj fields) /\
    assoc "landmarks" fields = Some landmarks /\
    ((exists items, landmarks = JArr items /\ length items = 63) \/
     (exists s, landmarks = JStr s /\
        length (List.filter
                  (fun c => negb (Nat.leb 128 (nat_of_ascii c)
                                  && Nat.ltb (nat_of_ascii c) 192))
                  (list_ascii_of_string s)) = 63) \/
     (exists fs, landmarks = JObj fs /\ length fs = 63)).
Proof.
  rewrite <- validated_counters, validated_spec.
  split; intros (Hm & Hl & fields & landmarks & Hb & Ha & Hk);
    (split; [exact Hm|]); (split; [exact Hl|]);
    exists fields, landmarks; (split; [exact Hb|]); (split; [exact Ha|]);
    (destruct Hk as [Hk|[(s & -> & Hn)|Hk]];
       [by left| |by right; right]);
    right; left; exists s; (split; [done|]).
  - by rewrite <- code_points_filter.
  - by rewrite code_points_filter.
Qed.

(** ** Start-up and the health check *)

(** X6.  When either artifact fails to load, the exception is logged, both
    globals are [None] (a model that had loaded is discarded when the
    encoder fails), the health check reports [model_loaded] false, and
    every classify request is answered "Model or encoder not loaded" with
    the counters untouched. *)
Theorem failed_startup (model_file : result (option Classifier))
    (encoder_file : result (option LabelEncoder))
    (foreign : json -> result (list float)) (e : string) :
  model_file = Raise e \/
    ((exists m, model_file = Ok m) /\ encoder_file = Raise e) ->
  let env := startup model_file encoder_file foreign in
  (load_artifacts model_file encoder_file).2
    = Error ("Error loading model or encoder: " +:+ e) /\
  model env = None /\ label_encoder env = None /\
  (forall today, (health_check env today).1.2 = false) /\
  (forall req st,
     predict_gesture env req st
     = ([], st, HTTPException 500 "Model or encoder not loaded")).
Proof.
  intros H env. unfold env.
  assert (Hl : load_artifacts model_file encoder_file
               = (None, None, Error ("Error loading model or encoder: " +:+ e))).
  { destruct H as [->|[[m ->] ->]]; reflexivity. }
  unfold startup. rewrite Hl. simpl. repeat split; done.
Qed.

Lemma failed_startup_witness :
  let env := startup (Ok (Some strict)) (Raise "No such file or directory")
               (fun _ => Raise "could not convert string to float") in
  (load_artifacts (Ok (Some strict)) (Raise "No such file or directory")).2
    = Error ("Error loading model or encoder: " +:+ "No such file or directory") /\
  model env = None /\ label_encoder env = None /\
  (forall today, (health_check env today).1.2 = false) /\
  (forall req st,
     predict_gesture env req st
     = ([], st, HTTPException 500 "Model or encoder not loaded")).
Proof.
  apply (failed_startup (Ok (Some strict)) (Raise "No such file or directory")).
  right. split; [by eexists|reflexivity].
Defined.

(** ** The repository's tests *)

(** X7.  [test_predict_invalid_input] posts 50 floats: its two assertions
    hold exactly when both artifacts are loaded; with an artifact missing
    the request is answered with status 500 and the test fails. *)
Theorem invalid_input_test_needs_artifacts (env : Env) (req : Request)
    (row : list float) :
  body req = Ok (landmarks_of row) -> length row = 50 ->
  (test_predict_invalid_input env req = true
   <-> is_Some (model env) /\ is_Some (label_encoder env)) /\
  (test_predict_invalid_input env req = false ->
   (predict_gesture env req metrics0).2
   = HTTPException 500 "Model or encoder not loaded").
Proof.
  intros Hb Hn. unfold test_predict_invalid_input, predict_gesture.
  rewrite Hb.
  destruct (model env) as [clf|]; [|split; [split; [done|by intros [[] _]]|done]].
  destruct (label_encoder env) as [le|];
    [|split; [split; [done|by intros [_ []]]|done]].
  simpl. rewrite length_fmap, Hn. simpl. split; [done|]. done.
Qed.

Lemma invalid_input_test_needs_artifacts_witness :
  (test_predict_invalid_input unloaded (post (landmarks_of (repeat 0.5%float 50))) = true
   <-> is_Some (model unloaded) /\ is_Some (label_encoder unloaded)) /\
  (test_predict_invalid_input unloaded (post (landmarks_of (repeat 0.5%float 50))) = false ->
   (predict_gesture unloaded (post (landmarks_of (repeat 0.5%float 50))) metrics0).2
   = HTTPException 500 "Model or encoder not loaded").
Proof.
  apply (invalid_input_test_needs_artifacts unloaded
           (post (landmarks_of (repeat 0.5%float 50))) (repeat 0.5%float 50));
    reflexivity.
Defined.

Lemma fold_maximum_elem (l : list float) : forall acc,
  fold_left maximum l acc ∈ acc :: l.
Proof.
  induction l as [|x l IH]; intros acc; simpl; [left|].
  assert (Hm : maximum acc x = acc \/ maximum acc x = x).
  { unfold maximum. destruct (_ || _); auto. }
  specialize (IH (maximum acc x)).
  apply elem_of_cons in IH as [IH|IH]; [|right; by right].
  rewrite IH. destruct Hm as [->| ->]; [left|right; left].
Qed.

Lemma np_max_elem (p : list float) (m : float) : np_max p = Ok m -> m ∈ p.
Proof.
  destruct p as [|x l]; [done|]. simpl. intros [= <-]. apply fold_maximum_elem.
Qed.

(** A request of 63 floats is answered by the handler with a dict or with
    an error of status 500. *)
Lemma floats_reply (env : Env) (req : Request) (row : list float) :
  body req = Ok (landmarks_of row) -> length row = 63 ->
  (exists r, (predict_gesture env req metrics0).2 = Return r) \/
  (exists e, (predict_gesture env req metrics0).2 = HTTPException 500 e).
Proof.
  intros Hb Hn.
  destruct (model env) as [clf|] eqn:Hm.
  2:{ rewrite predict_gesture_unloaded by auto. right. by eexists. }
  destruct (label_encoder env) as [le|] eqn:Hl.
  2:{ rewrite predict_gesture_unloaded by auto. right. by eexists. }
  destruct (predict_gesture_floats env req metrics0 clf le (landmarks_of row) row)
    as [-> _]; try done.
  destruct (classify clf le (normalized row) []).2 as [[[g d] c]|e];
    [left|right]; by eexists.
Qed.

(** X8.  A request of 63 floats, as [test_predict_valid_input] posts, is
    never rejected by validation and never escapes the handler, so the test
    passes exactly when the handler does not return a confidence that is
    not finite, which the framework refuses to render.  It passes when an
    artifact is missing, and when every probability the classifier answers
    on the normalized frame is finite. *)
Theorem valid_input_test_passes (env : Env) (req : Request) (row : list float) :
  body req = Ok (landmarks_of row) -> length row = 63 ->
  (test_predict_valid_input env req = true <->
   forall r, (predict_gesture env req metrics0).2 = Return r ->
             PrimFloat.is_finite (confidence r) = true) /\
  (model env = None \/ label_encoder env = None ->
   test_predict_valid_input env req = true) /\
  (forall clf, model env = Some clf ->
     (forall ps p, predict_proba clf (normalized row) = Ok ps -> p ∈ ps ->
                   forallb PrimFloat.is_finite p = true) ->
     test_predict_valid_input env req = true).
Proof.
  intros Hb Hn.
  assert (Hiff : test_predict_valid_input env req = true <->
                 forall r, (predict_gesture env req metrics0).2 = Return r ->
                           PrimFloat.is_finite (confidence r) = true).
  { unfold test_predict_valid_input.
    destruct (floats_reply env req row Hb Hn) as [[r ->]|[e ->]]; simpl.
    - destruct (PrimFloat.is_finite (confidence r)) eqn:Hf.
      + split; [by intros _ ? [= <-]|done].
      + split; [done|]. intros H. specialize (H r eq_refl). congruence.
    - split; [by intros _ ? [=]|done]. }
  split; [exact Hiff|]. split.
  - intros H. apply Hiff. by rewrite predict_gesture_unloaded.
  - intros clf Hm Hfin. apply Hiff. intros r Hr.
    destruct (label_encoder env) as [le|] eqn:Hl.
    2:{ rewrite predict_gesture_unloaded in Hr by auto. done. }
    destruct (predict_gesture_floats env req metrics0 clf le (landmarks_of row) row)
      as [Hreply _]; try done.
    rewrite Hreply in Hr. clear Hreply.
    destruct (classify clf le (normalized row) []).2 as [[[g d] c]|e] eqn:Hc;
      [|done].
    injection Hr as <-. simpl.
    unfold classify, bind, lift, emit, ret in Hc.
    destruct (predict clf (normalized row)) as [ys|]; [|done].
    destruct (item0 ys) as [prediction|]; [|done].
    destruct (predict_proba clf (normalized row)) as [ps|] eqn:Hps; [|done].
    destruct ps as [|p ps]; [done|]. simpl in Hc.
    destruct (np_max p) as [m|] eqn:Hmax; [|done].
    destruct (inverse_transform le [prediction]) as [labels|]; [|done].
    destruct (item0 labels) as [gesture|]; [|done].
    simpl in Hc. injection Hc as _ _ <-.
    apply np_max_elem, list_elem_of_In in Hmax.
    specialize (Hfin (p :: ps) p eq_refl ltac:(left)).
    by apply (proj1 (forallb_forall _ _) Hfin).
Qed.

Lemma valid_input_test_passes_witness :
  (test_predict_valid_input (service strict) (post (landmarks_of sample_pose)) = true <->
   forall r,
     (predict_gesture (service strict) (post (landmarks_of sample_pose)) metrics0).2
       = Return r ->
     PrimFloat.is_finite (confidence r) = true) /\
  (model (service strict) = None \/ label_encoder (service strict) = None ->
   test_predict_valid_input (service strict) (post (landmarks_of sample_pose)) = true) /\
  (forall clf, model (service strict) = Some clf ->
     (forall ps p, predict_proba clf (normalized sample_pose) = Ok ps -> p ∈ ps ->
                   forallb PrimFloat.is_finite p = true) ->
     test_predict_valid_input (service strict) (post (landmarks_of sample_pose)) = true).
Proof.
  apply (valid_input_test_passes (service strict)
           (post (landmarks_of sample_pose)) sample_pose); reflexivity.
Defined.

(** ** Success responses *)





(** ** NaN in the probabilities *)







(** ** The wrist after normalization *)

Lemma div_zero_l s :
  PrimFloat.is_nan s = false -> (s =? 0)%float = false ->
  (0 / s)%float = 0%float \/ (0 / s)%float = neg_zero.
Proof.
  intros Hnan%is_nan_Prim2SF Hz. rewrite FloatAxioms.eqb_spec in Hz.
  change (Prim2SF 0) with (S754_zero false) in Hz.
  assert (H : exists b, Prim2SF (0 / s) = S754_zero b).
  { rewrite FloatAxioms.div_spec. change (Prim2SF 0) with (S754_zero false).
    destruct (Prim2SF s) as [[]|[]| |[] m e]; try done; eexists; reflexivity. }
  destruct H as [[] H]; [right|left]; apply Prim2SF_inj; rewrite H; reflexivity.
Qed.

(** X12.  For a request of 63 floats whose landmark 1 has finite x and y
    and whose scale factor is neither zero nor NaN, normalization puts
    landmark 1 at the origin: the first two features handed to the
    classifier are zero. *)
Theorem wrist_at_origin (env : Env) (row : list float) :
  length row = 63 ->
  PrimFloat.is_finite (coord row 0 1) = true ->
  PrimFloat.is_finite (coord row 1 1) = true ->
  PrimFloat.is_nan (scale_of row) = false ->
  (scale_of row =? 0)%float = false ->
  exists ev h X x1 y1,
    build_features env (JArr (JFloat <$> row)) [] = (ev, h, Ok X) /\
    X !! 0 = Some x1 /\ X !! 1 = Some y1 /\
    (x1 =? 0)%float = true /\ (y1 =? 0)%float = true.
Proof.
  intros Hn Hfx Hfy Hnan Hz.
  destruct (build_features_floats env row Hn) as (ev & h & Hbuild & _).
  pose proof (normalized_x row 1 ltac:(simpl; lia)) as H0.
  pose proof (normalized_y row 1 ltac:(simpl; lia)) as H1.
  simpl in H0, H1. rewrite sub_diag_finite in H0, H1 by done.
  exists ev, h, (normalized row), (0 / scale_of row)%float, (0 / scale_of row)%float.
  repeat split; try done; by destruct (div_zero_l _ Hnan Hz) as [-> | ->].
Qed.

Lemma wrist_at_origin_witness :
  exists ev h X x1 y1,
    build_features (service strict) (JArr (JFloat <$> sample_pose)) []
      = (ev, h, Ok X) /\
    X !! 0 = Some x1 /\ X !! 1 = Some y1 /\
    (x1 =? 0)%float = true /\ (y1 =? 0)%float = true.
Proof.
  apply (wrist_at_origin (service strict) sample_pose); reflexivity.
Defined.

(** ** A frame that lacks a column *)

Lemma cell_None h df k : wf h df -> cell h df k = None -> data df !! k = None.
Proof.
  intros Hwf. unfold cell. destruct (data df !! k) as [l|] eqn:Hk; simpl; [|done].
  intros Hl. apply lookup_ge_None in Hl. pose proof (Hwf k l Hk). simpl in *. lia.
Qed.

Lemma for_range_missing wxl wyl wx wy s m : forall k lo df h,
  wf h df ->
  h !! wxl = Some wx -> h !! wyl = Some wy ->
  (forall i, lo <= i < lo + k ->
     is_Some (cell h df (fkey "x" i)) /\ is_Some (cell h df (fkey "y" i))) ->
  cell h df (fkey "x" (lo + k)) = None ->
  exists h',
    for_range lo (k + S m) (normalize_step wxl wyl s) df h
    = ([], h', Raise (key_error (fkey "x" (lo + k)))).
Proof.
  induction k as [|k IH]; intros lo df h Hwf Hwx Hwy Hxy Hnone.
  - rewrite Nat.add_0_r in *. exists h. simpl.
    unfold bind, normalize_step, bind, getitem, bind, values.
    by rewrite (cell_None _ _ _ Hwf Hnone).
  - destruct (Hxy lo ltac:(lia)) as [[xi Hx] [yi Hy]].
    destruct (normalize_step_run wxl wyl wx wy s lo df h xi yi)
      as (h1 & df1 & Hrun & Hwf1 & Hkeep1 & Hcell1); try done.
    assert (Hx' : forall i, lo < i -> cell h1 df1 (fkey "x" i) = cell h df (fkey "x" i)).
    { intros i Hi. rewrite Hcell1.
      rewrite decide_False by apply fkey_x_y.
      by rewrite decide_False by (intros ?%fkey_x_inj; lia). }
    assert (Hy' : forall i, lo < i -> cell h1 df1 (fkey "y" i) = cell h df (fkey "y" i)).
    { intros i Hi. rewrite Hcell1.
      by rewrite decide_False by (intros ?%fkey_y_inj; lia). }
    destruct (IH (S lo) df1 h1) as (h' & Hloop); auto.
    { intros i Hi. rewrite Hx', Hy' by lia. apply Hxy. lia. }
    { rewrite Hx' by lia. by replace (S lo + k) with (lo + S k) by lia. }
    exists h'. simpl. run Hrun.
    replace (lo + S k) with (S lo + k) by lia. by rewrite Hloop.
Qed.

(** X13.  On a frame that holds the x and y columns of landmarks 1 and 13
    and of every landmark below [n] but has no column [x_n], normalization
    raises
    the KeyError of [x_n]: the columns of the landmarks below [n] have been
    rewritten by then, and nothing is printed. *)
Theorem normalize_landmarks_missing_column (df : DataFrame) (h : heap) (n : nat) :
  wf h df ->
  1 <= n <= 21 ->
  (forall i, 1 <= i < n \/ i = 1 \/ i = 13 ->
     is_Some (cell h df (fkey "x" i)) /\ is_Some (cell h df (fkey "y" i))) ->
  data df !! fkey "x" n = None ->
  exists h',
    normalize_landmarks df h = ([], h', Raise (key_error (fkey "x" n))).
Proof.
  intros Hwf Hn Hxy Hnone.
  assert (Hcn : cell h df (fkey "x" n) = None) by (unfold cell; by rewrite Hnone).
  assert (H1n : 1 < n).
  { destruct (decide (n = 1)) as [->|]; [|lia].
    destruct (Hxy 1 ltac:(lia)) as [[v Hv] _]. congruence. }
  destruct (Hxy 1 ltac:(lia)) as [[x1 Hx1] [y1 Hy1]].
  destruct (Hxy 13 ltac:(lia)) as [[x13 Hx13] [y13 Hy13]].
  destruct (values_cell _ _ _ _ Hx1) as (wxl & Hvx1 & Hwx).
  destruct (values_cell _ _ _ _ Hy1) as (wyl & Hvy1 & Hwy).
  destruct (values_cell _ _ _ _ Hx13) as (txl & Hvx13 & Htx).
  destruct (values_cell _ _ _ _ Hy13) as (tyl & Hvy13 & Hty).
  destruct (for_range_missing wxl wyl x1 y1
              (hypot (x13 - x1)%float (y13 - y1)%float) (21 - n) (n - 1) 1 df h)
    as (h' & Hloop); auto.
  { intros i Hi. apply Hxy. lia. }
  { by replace (1 + (n - 1)) with n by lia. }
  exists h'. unfold normalize_landmarks.
  run Hvx1. run Hvy1. run Hvx13. run Hvy13.
  run (load_run _ _ _ Htx). run (load_run _ _ _ Hwx).
  run (load_run _ _ _ Hty). run (load_run _ _ _ Hwy).
  replace 21 with (n - 1 + S (21 - n)) by lia.
  unfold bind at 1. rewrite Hloop.
  by replace (1 + (n - 1)) with n by lia.
Qed.

Lemma normalize_landmarks_missing_column_witness :
  wf short_frame.1 short_frame.2 /\
  exists h',
    normalize_landmarks short_frame.2 short_frame.1
    = ([], h', Raise (key_error (fkey "x" 14))).
Proof.
  assert (Hwf : wf short_frame.1 short_frame.2).
  { apply map_Forall_to_list. vm_compute. repeat constructor. }
  split; [exact Hwf|].
  apply (normalize_landmarks_missing_column short_frame.2 short_frame.1 14 Hwf).
  - lia.
  - intros i Hi.
    do 14 (destruct i as [|i];
           [first [lia | split; eexists; vm_compute; reflexivity]|]).
    lia.
  - vm_compute. reflexivity.
Defined.

(** ** Building the frame *)

Lemma fill_spec (names : list string) : forall (row : list float) df h,
  length row = length names ->
  NoDup names ->
  (forall k, k ∈ names -> k ∉ columns df) ->
  wf h df ->
  exists h' df',
    fill df names row h = ([], h', Ok df') /\
    wf h' df' /\
    columns df' = columns df ++ names /\
    (forall j k, names !! j = Some k -> cell h' df' k = row !! j) /\
    (forall k, k ∉ names -> cell h' df' k = cell h df k).
Proof.
  induction names as [|k names IH]; intros row df h Hlen Hnd Hnew Hwf.
  - destruct row; [|done]. exists h, df. simpl.
    rewrite app_nil_r. repeat split; done.
  - destruct row as [|v row]; [done|].
    apply NoDup_cons in Hnd as [Hk Hnd].
    assert (Hcols : columns (bound df k (length h)) = columns df ++ [k]).
    { unfold bound; simpl. rewrite decide_False; [done|]. apply Hnew. left. }
    destruct (IH row (bound df k (length h)) (h ++ [v]))
      as (h' & df' & Hfill & Hwf' & Hc & Hin & Hout).
    { simpl in Hlen. lia. }
    { done. }
    { intros k' Hk'. rewrite Hcols. intros [?| ->%list_elem_of_singleton]%elem_of_app.
      - apply (Hnew k'); [by right|done].
      - done. }
    { by apply wf_setitem. }
    exists h', df'. split; [|split; [done|split; [|split]]].
    + simpl. run (setitem_run df k v h). by rewrite Hfill.
    + rewrite Hc, Hcols, <- app_assoc. done.
    + intros [|j] k' Hj; simpl in Hj.
      * injection Hj as <-. rewrite Hout by done. rewrite cell_setitem by done.
        by rewrite decide_True.
      * by apply Hin.
    + intros k' Hk'. rewrite Hout by (intros ?; apply Hk'; by right).
      rewrite cell_setitem by done.
      rewrite decide_False; [done|]. intros <-. apply Hk'. left.
Qed.

Lemma feature_names_NoDup : NoDup feature_names.
Proof. apply (bool_decide_unpack _). vm_compute. exact I. Qed.

Lemma feature_names_lookup n i :
  1 <= n <= 21 -> i < 3 ->
  feature_names !! (3 * (n - 1) + i)
  = Some (fkey (default "z" (["x"; "y"; "z"] !! i)) n).
Proof.
  intros Hn Hi.
  do 22 (destruct n as [|n];
         [first [lia | do 3 (destruct i as [|i]; [reflexivity|]); lia]|]).
  lia.
Qed.

(** X14.  The feature frame: a row of 63 floats becomes a frame whose
    column index is x1, y1, z1, ..., x21, y21, z21 in that order and whose
    columns x_n, y_n, z_n hold the row's entries 3(n-1), 3(n-1)+1 and
    3(n-1)+2; a row of any other length is refused with the shape error
    that names both lengths. *)
Theorem feature_frame (row : list float) :
  (length row = 63 ->
   exists h df,
     DataFrame_new row feature_names [] = ([], h, Ok df) /\
     wf h df /\ columns df = feature_names /\
     forall n, 1 <= n <= 21 ->
       cell h df (fkey "x" n) = Some (coord row 0 n) /\
       cell h df (fkey "y" n) = Some (coord row 1 n) /\
       cell h df (fkey "z" n) = Some (coord row 2 n)) /\
  (length row <> 63 ->
   DataFrame_new row feature_names []
   = ([], [], Raise (shape_error (length row) 63))).
Proof.
  split.
  - intros Hn. unfold DataFrame_new.
    rewrite decide_True by (rewrite Hn; reflexivity).
    destruct (fill_spec feature_names row {| columns := []; data := ∅ |} [])
      as (h & df & Hfill & Hwf & Hc & Hin & _).
    { rewrite Hn. reflexivity. }
    { apply feature_names_NoDup. }
    { intros k _. simpl. apply not_elem_of_nil. }
    { apply map_Forall_empty. }
    exists h, df. split; [done|]. split; [done|]. split; [done|].
    intros n Hn'.
    assert (Hv : forall i, i < 3 ->
              cell h df (fkey (default "z" (["x"; "y"; "z"] !! i)) n)
              = Some (coord row i n)).
    { intros i Hi. rewrite (Hin _ _ (feature_names_lookup n i Hn' Hi)).
      unfold coord. apply row_lookup. lia. }
    split; [exact (Hv 0 ltac:(lia))|]. split; [exact (Hv 1 ltac:(lia))|].
    exact (Hv 2 ltac:(lia)).
  - intros Hn. unfold DataFrame_new.
    rewrite decide_False by (intros E; apply Hn; rewrite E; reflexivity).
    reflexivity.
Qed.

(** ** From the request to the classifier *)

(** X15.  For a request of 63 floats, array construction, the frame,
    normalization and the conversion back compose without raising: the
    classifier receives 63 features in the order of the input, where
    entries 3(n-1) and 3(n-1)+1 are landmark n's x and y recentred on
    landmark 1 and divided by the scale factor and entry 3(n-1)+2 is its z
    as sent; the two lines printed show the normalized landmark 1 and the
    distance of the normalized landmark 13 from the origin. *)
Theorem features_handed_to_classifier (env : Env) (row : list float) :
  length row = 63 ->
  exists h X,
    build_features env (JArr (JFloat <$> row)) []
    = ([Print "Wrist (x1, y1) after normalization:" [coord X 0 1; coord X 1 1];
        Print "Middle finger tip (x13, y13) distance from wrist:"
          [hypot (coord X 0 13) (coord X 1 13)]],
       h, Ok X) /\
    length X = 63 /\
    forall n, 1 <= n <= 21 ->
      X !! (3 * (n - 1))
        = Some ((coord row 0 n - coord row 0 1) / scale_of row)%float /\
      X !! (3 * (n - 1) + 1)
        = Some ((coord row 1 n - coord row 1 1) / scale_of row)%float /\
      X !! (3 * (n - 1) + 2) = Some (coord row 2 n).
Proof.
  intros H.
  do 63 (destruct row as [|? row]; [discriminate H|]).
  destruct row; [|discriminate H].
  match goal with H : length ?r = 63 |- _ => eexists _, (normalized r) end.
  split; [vm_compute; reflexivity|]. split; [reflexivity|].
  intros n Hn.
  do 22 (destruct n as [|n]; [first [lia | repeat split; reflexivity]|]).
  lia.
Qed.

Lemma features_handed_to_classifier_witness :
  exists h X,
    build_features (service strict) (JArr (JFloat <$> sample_pose)) []
    = ([Print "Wrist (x1, y1) after normalization:" [coord X 0 1; coord X 1 1];
        Print "Middle finger tip (x13, y13) distance from wrist:"
          [hypot (coord X 0 13) (coord X 1 13)]],
       h, Ok X) /\
    length X = 63 /\
    forall n, 1 <= n <= 21 ->
      X !! (3 * (n - 1))
        = Some ((coord sample_pose 0 n - coord sample_pose 0 1)
                / scale_of sample_pose)%float /\
      X !! (3 * (n - 1) + 1)
        = Some ((coord sample_pose 1 n - coord sample_pose 1 1)
                / scale_of sample_pose)%float /\
      X !! (3 * (n - 1) + 2) = Some (coord sample_pose 2 n).
Proof.
  apply (features_handed_to_classifier (service strict) sample_pose).
  reflexivity.
Defined.

(** ** What is logged *)

Lemma mapM_as_float items : forall row,
  mapM as_float items = Some row -> items = JFloat <$> row.
Proof.
  induction items as [|v items IH]; intros row; simpl.
  - by intros [= <-].
  - destruct v; try done. simpl.
    destruct (mapM as_float items) as [fs|]; [|done]. simpl.
    intros [= <-]. simpl. by rewrite (IH fs eq_refl).
Qed.

Lemma as_floats_Some landmarks row :
  as_floats landmarks = Some row -> landmarks = JArr (JFloat <$> row).
Proof.
  destruct landmarks as [| | | | |items|]; try done. simpl.
  by intros ->%mapM_as_float.
Qed.

Lemma count_app {A} (p : A -> bool) l1 l2 :
  count p (l1 ++ l2) = count p l1 + count p l2.
Proof. unfold count. by rewrite List.filter_app, length_app. Qed.

Lemma count_inference_events p ev :
  (forall e, inference_event e = true -> p e = false) ->
  forallb inference_event ev = true -> count p ev = 0.
Proof.
  intros Hp. unfold count. induction ev as [|e ev IH]; [done|]. simpl.
  intros [He Hev]%andb_true_iff. rewrite (Hp e He). auto.
Qed.

Lemma classify_events clf le X (h : heap) :
  forallb inference_event (classify clf le X h).1.1 = true.
Proof.
  unfold classify, bind, lift, emit, ret.
  destruct (predict clf X) as [ys|]; [|done].
  destruct (item0 ys) as [prediction|]; [|done].
  destruct (predict_proba clf X) as [ps|]; [|done].
  destruct (item0 ps) as [probabilities|]; [|done].
  destruct (np_max probabilities) as [confidence|]; [|done].
  destruct (inverse_transform le [prediction]) as [labels|]; [|done].
  destruct (item0 labels) as [gesture|]; done.
Qed.

Lemma infer_events env clf le landmarks :
  py_len landmarks = Ok 63 ->
  forallb inference_event (infer env clf le landmarks []).1.1 = true.
Proof.
  intros Hn. unfold infer, bind.
  assert (Hb : exists ev h r, build_features env landmarks [] = (ev, h, r) /\
                              forallb inference_event ev = true).
  { destruct (as_floats landmarks) as [row|] eqn:Ha.
    - apply as_floats_Some in Ha as ->. simpl in Hn.
      rewrite length_fmap in Hn. injection Hn as Hn.
      destruct (build_features_floats env row Hn) as (ev & h & Hb & Hev).
      eauto.
    - unfold build_features, lift. rewrite Ha. eauto. }
  destruct Hb as (ev & h & r & -> & Hev). destruct r as [X|e]; [|done].
  pose proof (classify_events clf le X h) as Hc.
  destruct (classify clf le X h) as [[ev' h'] r']. simpl in *.
  by rewrite forallb_app, Hev, Hc.
Qed.

(** X16.  What a classify request logs follows from its reply: a success
    response comes with exactly one info line and no error line; an error
    reply comes with exactly one error line and no info line, except the
    reply "Model or encoder not loaded" of a process without its
    artifacts, which logs nothing; an exception that escapes the handler
    has logged nothing. *)
Theorem log_lines (env : Env) (req : Request) (st : Metrics) :
  let ev := (predict_gesture env req st).1.1 in
  let loaded := bool_decide (is_Some (model env) /\ is_Some (label_encoder env)) in
  match (predict_gesture env req st).2 with
  | Return _ => count is_error_log ev = 0 /\ count is_info_log ev = 1
  | HTTPException _ _ =>
      count is_info_log ev = 0 /\
      count is_error_log ev = (if loaded then 1 else 0)
  | Unhandled _ => ev = []
  end.
Proof.
  intros ev loaded. unfold ev, loaded. clear ev loaded.
  destruct (validated env req) eqn:Hv.
  - destruct (validated_inv _ _ Hv) as (clf & le & data & l & Hm & Hl & ? & ? & ? & Hn).
    rewrite (predict_gesture_validated env req st clf le data l) by done.
    rewrite bool_decide_true by (rewrite Hm, Hl; split; by eexists).
    pose proof (infer_events env clf le l Hn) as Hev.
    unfold run_inference.
    destruct (infer env clf le l []) as [[ev h] [[[g d] c]|e]]; simpl in *;
      rewrite !count_app;
      rewrite (count_inference_events is_error_log ev) by (done || by intros []);
      rewrite (count_inference_events is_info_log ev) by (done || by intros []);
      done.
  - revert Hv. unfold validated, predict_gesture.
    destruct (model env) as [clf|];
      [|intros _; rewrite bool_decide_false by (by intros [[] _]); done].
    destruct (label_encoder env) as [le|];
      [|intros _; rewrite bool_decide_false by (by intros [_ []]); done].
    rewrite bool_decide_true by (split; by eexists).
    destruct (body req) as [data|]; [|done].
    destruct (dict_get data "landmarks") as [landmarks|]; [|done].
    destruct (truthy landmarks); simpl; [|done].
    destruct (py_len landmarks) as [n|]; [|done].
    destruct (Nat.eqb n 63); simpl; done.
Qed.

(** ** The stages of inference *)




(** ** Landmarks that count as none *)


